(** * hw_status_bot: a shallow embedding of the homework-status bot

    The bot polls the homework-review API, turns the newest homework's
    status into a text and forwards it to one Telegram chat.  This file
    embeds [hw_status_bot.py] function by function and proves the
    properties of its specification on the embedding. *)

From Stdlib Require Import ZArith List String Ascii Bool Lia DecimalString.
From Stdlib Require PrimFloat FloatOps SpecFloat.
Import ListNotations.
Open Scope string_scope.
Open Scope Z_scope.
Set Warnings "-register-all".

(** ** Parsed JSON

    [response.json()] yields a dynamically typed value.  A number is an
    integer (the API's [id] and [current_date]) or a float; a float is its
    IEEE double, [NaN] and the infinities among them, together with the
    text [repr] prints for it.  [None] is [JNull]; a dict is the list of
    its items in insertion order, every key held once. *)

Inductive json : Type :=
| JNull
| JBool (b : bool)
| JNum (z : Z)
| JFloat (f : PrimFloat.float) (text : string)
| JStr (s : string)
| JList (l : list json)
| JDict (d : list (string * json)).

(** An induction principle that reaches the values nested in lists and
    dicts. *)
Section json_induction.
Variable P : json -> Prop.
Hypothesis HNull : P JNull.
Hypothesis HBool : forall b, P (JBool b).
Hypothesis HNum : forall z, P (JNum z).
Hypothesis HFloat : forall f text, P (JFloat f text).
Hypothesis HStr : forall s, P (JStr s).
Hypothesis HList : forall l, Forall P l -> P (JList l).
Hypothesis HDict : forall d, Forall (fun kv => P (snd kv)) d -> P (JDict d).

Fixpoint json_nested_ind (v : json) : P v :=
  match v with
  | JNull => HNull
  | JBool b => HBool b
  | JNum z => HNum z
  | JFloat f text => HFloat f text
  | JStr s => HStr s
  | JList l =>
      HList l
        ((fix go (l : list json) : Forall P l :=
            match l with
            | [] => Forall_nil P
            | x :: l' => Forall_cons x (json_nested_ind x) (go l')
            end) l)
  | JDict d =>
      HDict d
        ((fix go (d : list (string * json))
            : Forall (fun kv => P (snd kv)) d :=
            match d with
            | [] => Forall_nil _
            | kv :: d' =>
                Forall_cons kv (json_nested_ind (snd kv)) (go d')
            end) d)
  end.
End json_induction.

(** ** Python's dict and container operations on parsed values *)

(** [d[key]] on the items of a dict: the value of the first item with that
    key. *)
Fixpoint lookup (key : string) (d : list (string * json)) : option json :=
  match d with
  | [] => None
  | (k, v) :: d' => if String.eqb key k then Some v else lookup key d'
  end.

Definition has_key (key : string) (d : list (string * json)) : bool :=
  match lookup key d with Some _ => true | None => false end.

(** The double quote, as a one-character string. *)
Definition dq : string := String "034"%char EmptyString.


(** ** Python's [str] and [repr] *)

(** [str(n)] of an integer: its decimal digits, with a sign when negative. *)
Definition str_int (z : Z) : string := NilZero.string_of_int (Z.to_int z).

Fixpoint has_char (c : ascii) (s : string) : bool :=
  match s with
  | EmptyString => false
  | String c' s' => Ascii.eqb c c' || has_char c s'
  end.

Definition hex_digit (n : nat) : ascii :=
  if Nat.ltb n 10 then ascii_of_nat (48 + n) else ascii_of_nat (87 + n).

Definition backslash : ascii := "092"%char.

(** What [repr] writes for one character inside the quotes [q].  Strings
    are UTF-8 byte sequences here: the bytes of a code point above 127 are
    kept as they are, which is what [repr] does for every printable
    character.  A code point above 127 that is not printable (U+00A0,
    say), which [repr] writes as an escape, is kept as it is too. *)
Definition repr_char (q c : ascii) : string :=
  let n := nat_of_ascii c in
  if Ascii.eqb c backslash || Ascii.eqb c q then String backslash (String c "")
  else if Nat.eqb n 9 then String backslash "t"
  else if Nat.eqb n 10 then String backslash "n"
  else if Nat.eqb n 13 then String backslash "r"
  else if Nat.ltb n 32 || Nat.eqb n 127 then
    String backslash
      (String "x" (String (hex_digit (n / 16)) (String (hex_digit (n mod 16)) "")))
  else String c "".

Fixpoint repr_chars (q : ascii) (s : string) : string :=
  match s with
  | EmptyString => EmptyString
  | String c s' => repr_char q c ++ repr_chars q s'
  end.

(** [repr(s)] of a string: single quotes, unless the string holds a single
    quote and no double quote. *)
Definition repr_str (s : string) : string :=
  let q := if has_char "'" s && negb (has_char "034" s)
           then "034"%char else "'"%char in
  String q (repr_chars q s ++ String q "").

(** [repr(v)] of a parsed value. *)
Fixpoint py_repr (v : json) : string :=
  match v with
  | JNull => "None"
  | JBool true => "True"
  | JBool false => "False"
  | JNum z => str_int z
  | JFloat _ text => text
  | JStr s => repr_str s
  | JList l =>
      "[" ++ (fix items (l : list json) : string :=
                match l with
                | [] => ""
                | [x] => py_repr x
                | x :: l' => py_repr x ++ ", " ++ items l'
                end) l ++ "]"
  | JDict d =>
      "{" ++ (fix items (d : list (string * json)) : string :=
                match d with
                | [] => ""
                | [(k, x)] => repr_str k ++ ": " ++ py_repr x
                | (k, x) :: d' =>
                    repr_str k ++ ": " ++ py_repr x ++ ", " ++ items d'
                end) d ++ "}"
  end.

(** [str(v)], which is what [str.format] puts in a [{}] hole: a string goes
    in as it is, everything else as its [repr]. *)
Definition py_str (v : json) : string :=
  match v with
  | JStr s => s
  | _ => py_repr v
  end.

(** The type name the interpreter prints in its own error messages. *)
Definition type_name (v : json) : string :=
  match v with
  | JNull => "NoneType"
  | JBool _ => "bool"
  | JNum _ => "int"
  | JFloat _ _ => "float"
  | JStr _ => "str"
  | JList _ => "list"
  | JDict _ => "dict"
  end.

(** ** Python's [==] on parsed values

    [True == 1] and [False == 0]; an integer and a float are equal when
    they are the same number, exactly; two floats are compared as IEEE
    doubles, so that [NaN] is not equal to itself.  Lists are compared item
    by item and two dicts are equal when they hold the same keys with
    equal values, in any order; items and values that are the same object
    count as equal without being compared, and the parser has one [NaN]
    object, so inside lists and dicts a [NaN] equals a [NaN]. *)
Definition Z_of_bool (b : bool) : Z := if b then 1 else 0.

(** [z == f] for an integer and a float: the double is the integer. *)
Definition Z_eq_float (z : Z) (f : PrimFloat.float) : bool :=
  match FloatOps.Prim2SF f with
  | SpecFloat.S754_zero _ => z =? 0
  | SpecFloat.S754_finite sign m e =>
      let v := if sign then Z.neg m else Z.pos m in
      if 0 <=? e then z =? v * 2 ^ e
      else (v mod 2 ^ (- e) =? 0) && (z =? v / 2 ^ (- e))
  | _ => false
  end.

(** A float that is [NaN]. *)
Definition is_nan (v : json) : bool :=
  match v with
  | JFloat f _ => negb (PrimFloat.eqb f f)
  | _ => false
  end.

Fixpoint py_eq (a b : json) : bool :=
  match a, b with
  | JNull, JNull => true
  | JBool x, JBool y => Bool.eqb x y
  | JBool x, JNum z => Z_of_bool x =? z
  | JNum z, JBool y => z =? Z_of_bool y
  | JNum x, JNum y => x =? y
  | JBool x, JFloat f _ => Z_eq_float (Z_of_bool x) f
  | JFloat f _, JBool y => Z_eq_float (Z_of_bool y) f
  | JNum z, JFloat f _ => Z_eq_float z f
  | JFloat f _, JNum z => Z_eq_float z f
  | JFloat f _, JFloat g _ => PrimFloat.eqb f g
  | JStr x, JStr y => String.eqb x y
  | JList l1, JList l2 =>
      (fix items (l1 l2 : list json) : bool :=
         match l1, l2 with
         | [], [] => true
         | x :: l1', y :: l2' =>
             (is_nan x && is_nan y || py_eq x y) && items l1' l2'
         | _, _ => false
         end) l1 l2
  | JDict d1, JDict d2 =>
      Nat.eqb (List.length d1) (List.length d2) &&
      (fix items (seen : list string) (d : list (string * json)) : bool :=
         match d with
         | [] => true
         | (k, x) :: d' =>
             (if existsb (String.eqb k) seen then true
              else match lookup k d2 with
                   | Some y => is_nan x && is_nan y || py_eq x y
                   | None => false
                   end) && items (k :: seen) d'
         end) [] d1
  | _, _ => false
  end.


(** Substring test, Python's [key in text] on two strings. *)
Fixpoint occurs (key s : string) : bool :=
  prefix key s ||
  match s with
  | EmptyString => false
  | String _ s' => occurs key s'
  end.

(** ** Exceptions and results

    Every class below derives from [Exception].  [ConnectionError],
    [KeyError], [IndexError], [TypeError], [ValueError] and [AttributeError]
    are Python's own; [RequestException] stands for what the [requests]
    library raises (also from [response.json()]), [TelegramError] for what
    the Telegram client raises, [InvalidToken] being the one its
    constructor raises.  The three classes imported from [hw_exceptions]
    are taken as plain [Exception] subclasses built from one message. *)
Inductive exn : Type :=
| RequestException (msg : string)
| TelegramError (msg : string)
| InvalidToken (msg : string)
| ConnectionError (msg : string)
| BadResponseError (msg : string)
| DenialOfServiceError (msg : string)
| MissingVariableError (msg : string)
| KeyError (key : string)
| IndexError (msg : string)
| TypeError (msg : string)
| ValueError (msg : string)
| AttributeError (msg : string).

(** [str(error)], which fills a [{}] hole: the message, except for
    [KeyError], which prints the [repr] of its argument. *)
Definition str_exn (e : exn) : string :=
  match e with
  | KeyError key => repr_str key
  | RequestException msg | TelegramError msg | InvalidToken msg
  | ConnectionError msg
  | BadResponseError msg | DenialOfServiceError msg
  | MissingVariableError msg | IndexError msg | TypeError msg | ValueError msg
  | AttributeError msg => msg
  end.

Inductive result (A : Type) : Type :=
| Ok (a : A)
| Raise (e : exn).
Arguments Ok {A} a.
Arguments Raise {A} e.

Definition rbind {A B} (r : result A) (k : A -> result B) : result B :=
  match r with
  | Ok a => k a
  | Raise e => Raise e
  end.

Declare Scope result_scope.
Delimit Scope result_scope with res.
Notation "x <- r ;; k" := (rbind r (fun x => k))
  (at level 100, r at next level, right associativity) : result_scope.

(** [value[key]] with a string key. *)
Definition getitem (value : json) (key : string) : result json :=
  match value with
  | JDict d =>
      match lookup key d with
      | Some v => Ok v
      | None => Raise (KeyError key)
      end
  | JList _ => Raise (TypeError "list indices must be integers or slices, not str")
  | JStr _ => Raise (TypeError "string indices must be integers, not 'str'")
  | _ => Raise (TypeError ("'" ++ type_name value ++ "' object is not subscriptable"))
  end.

(** [key in value] with a string key. *)
Definition contains (key : string) (value : json) : result bool :=
  match value with
  | JDict d => Ok (has_key key d)
  | JList l => Ok (existsb (py_eq (JStr key)) l)
  | JStr s => Ok (occurs key s)
  | _ => Raise (TypeError ("argument of type '" ++ type_name value ++ "' is not iterable"))
  end.

(** [value.get(key, default)]: only a dict has the method. *)
Definition dict_get (value : json) (key : string) (default : json) : result json :=
  match value with
  | JDict d =>
      match lookup key d with
      | Some v => Ok v
      | None => Ok default
      end
  | _ => Raise (AttributeError ("'" ++ type_name value ++ "' object has no attribute 'get'"))
  end.

(** [isinstance(value, list)]. *)
Definition is_list (value : json) : bool :=
  match value with
  | JList _ => true
  | _ => false
  end.

(** Truth value of a parsed value, as [if value:] tests it. *)
Definition truthy (value : json) : bool :=
  match value with
  | JNull => false
  | JBool b => b
  | JNum z => negb (z =? 0)
  | JFloat f _ => negb (PrimFloat.eqb f PrimFloat.zero)
  | JStr s => negb (String.eqb s "")
  | JList l => match l with [] => false | _ => true end
  | JDict d => match d with [] => false | _ => true end
  end.

(** [homeworks[0]]; [main] reaches it on a non-empty list only. *)
Definition first_item (value : json) : result json :=
  match value with
  | JList (x :: _) => Ok x
  | _ => Raise (IndexError "list index out of range")
  end.

(** ** Constants of the module

    A message template is the function of its holes: [T.format(a, b)] is
    [T a b], the holes filled left to right, the named holes [{url}],
    [{headers}] and [{params}] from the keyword arguments. *)

Definition ENDPOINT : string :=
  "https://practicum.yandex.ru/api/user_api/homework_statuses/".

Definition RETRY_TIME : Z := 600.

Definition VARIABLE_NAMES : list string :=
  ["PRACTICUM_TOKEN"; "AWESOM_O_TOKEN"; "MY_CHAT_ID"].

Definition VERDICTS : list (string * string) :=
  [("approved",
    "Работа проверена: ревьюеру всё понравилось. Ура!");
   ("rejected",
    "Работа проверена: у ревьюера есть замечания.");
   ("reviewing",
    "Работа взята на проверку ревьюером.")].

Definition BAD_RESPONSE (status_code url headers params : string) : string :=
  "Код ответа API: "
  ++ status_code
  ++ ". Параметры запроса: "
  ++ url
  ++ ", "
  ++ headers
  ++ ", "
  ++ params
  ++ ".".

Definition BOT_LAUNCH_STOPPED : string :=
  "Запуск бота остановлен.".

Definition DENIAL_OF_SERVICE (key value url headers params : string) : string :=
  "Отказ от обслуживания. Ключ: "
  ++ key
  ++ ". Ошибка: "
  ++ value
  ++ ". Параметры запроса: "
  ++ url
  ++ ", "
  ++ headers
  ++ ", "
  ++ params
  ++ ".".

Definition ERROR_FOUND (error : string) : string :=
  "Ошибка в работе программы: "
  ++ error
  ++ ".".

Definition INVALID_DATA_TYPE : string :=
  "Домашние работы не в виде списка.".

Definition MESSAGE_SENDING_FAILED (error : string) : string :=
  "Сбой при отправке сообщения в Telegram: "
  ++ error
  ++ ".".

Definition MESSAGE_SENT (message : string) : string :=
  "Сообщение " ++ dq
  ++ message
  ++ dq ++ " отправлено в Телеграм.".

Definition MISSED_VARIABLES (missed : string) : string :=
  "Отсутствуют обязательные переменные окружения: "
  ++ missed
  ++ ". Программа принудительно остановлена.".

Definition MISSING_REQUIRED_KEY : string :=
  "В ответе от API-сервиса отсутствует необходимый ключ.".

Definition NO_RESPONSE (error url headers params : string) : string :=
  "API-сервис не отвечает: "
  ++ error
  ++ ". Параметры запроса: "
  ++ url
  ++ ", "
  ++ headers
  ++ ", "
  ++ params
  ++ ".".

Definition STATUS_CHANGED (homework_name verdict : string) : string :=
  "Изменился статус проверки работы " ++ dq
  ++ homework_name
  ++ dq ++ ". "
  ++ verdict.

Definition STATUSES_NOT_CHANGED : string :=
  "Статусы домашних работ не изменились.".

Definition UNEXPECTED_STATUS (homework_status : string) : string :=
  "Неожиданный статус домашней работы: "
  ++ homework_status
  ++ ".".

(** The text [send_message] sends ahead of every notification. *)
Definition ATTENTION : string :=
  "Внимание ⚠️ Поступила важная информация 📨".

(** ** The environment of the process *)

(** The three variables read with [os.getenv] when the module is loaded:
    [None] when the variable is not set, a string (maybe empty) when it
    is. *)
Record config : Type := mkConfig {
  PRACTICUM_TOKEN : option string;
  MY_CHAT_ID : option string;
  AWESOM_O_TOKEN : option string
}.

(** [globals()[name]] for the names of [VARIABLE_NAMES]. *)
Definition globals (cfg : config) (name : string) : option string :=
  if String.eqb name "PRACTICUM_TOKEN" then PRACTICUM_TOKEN cfg
  else if String.eqb name "AWESOM_O_TOKEN" then AWESOM_O_TOKEN cfg
  else if String.eqb name "MY_CHAT_ID" then MY_CHAT_ID cfg
  else None.

(** [str] of a value that is [None] or a string. *)
Definition str_opt (v : option string) : string :=
  match v with
  | None => "None"
  | Some s => s
  end.

(** [HEADERS = {'Authorization': f'OAuth {PRACTICUM_TOKEN}'}]. *)
Definition HEADERS (cfg : config) : list (string * json) :=
  [("Authorization", JStr ("OAuth " ++ str_opt (PRACTICUM_TOKEN cfg)))].

(** The keyword arguments of [requests.get]. *)
Record request_params : Type := mkRequest {
  url : string;
  headers : list (string * json);
  params : list (string * json)
}.

(** What [requests.get] does with a request: it raises a
    [RequestException], whose text is [error], or it returns a response
    with a status code and a body, which [response.json()] parses or
    fails to. *)
Inductive http_outcome : Type :=
| Unreachable (error : string)
| Response (status_code : Z) (body : result json).

Definition transport : Type := request_params -> http_outcome.

(** What the process does that can be seen from outside, oldest first: log
    records, calls of [bot.send_message] with the error the call raised
    ([None] when the text was delivered), and sleeps. *)
Inductive level : Type := DEBUG | INFO | ERROR | CRITICAL.

Inductive event : Type :=
| Log (lvl : level) (msg : string)
| BotSend (chat_id : option string) (text : string) (error : option string)
| Sleep (secs : Z).

(** The Telegram client: given everything that happened so far, the chat
    and the text, it delivers ([None]) or raises ([Some error]). *)
Definition Bot : Type := list event -> option string -> string -> option string.

(** The class [telegram.Bot]: called with a token it gives a client, or
    raises ([InvalidToken] for a token it refuses). *)
Definition BotClass : Type := option string -> result Bot.

(** The module's globals, the [timestamp] local of [main], and the trace
    of events. *)
Record state : Type := mkState {
  current_hw_id : json;
  last_message : option string;
  last_message_hw_id : json;
  timestamp : json;
  events : list event
}.

Definition initial : state :=
  {| current_hw_id := JNull;
     last_message := None;
     last_message_hw_id := JNull;
     timestamp := JNull;
     events := [] |}.

(** ** Statements: state passing with exceptions *)

Definition M (A : Type) : Type := state -> result A * state.

Definition ret {A} (a : A) : M A := fun s => (Ok a, s).

Definition raise {A} (e : exn) : M A := fun s => (Raise e, s).

Definition bind {A B} (m : M A) (k : A -> M B) : M B :=
  fun s =>
    match m s with
    | (Ok a, s') => k a s'
    | (Raise e, s') => (Raise e, s')
    end.

(** An expression that may raise, evaluated inside a statement. *)
Definition lift {A} (r : result A) : M A := fun s => (r, s).

Declare Scope stmt_scope.
Delimit Scope stmt_scope with stmt.
Notation "x <- m ;; k" := (bind m (fun x => k))
  (at level 100, m at next level, right associativity) : stmt_scope.
Notation "m ;; k" := (bind m (fun _ => k))
  (at level 100, right associativity) : stmt_scope.

(** [try: body / except Exception as error: handler error]. *)
Definition try_except {A} (body : M A) (handler : exn -> M A) : M A :=
  fun s =>
    match body s with
    | (Ok a, s') => (Ok a, s')
    | (Raise e, s') => handler e s'
    end.

(** [try: body / finally: cleanup]: the cleanup runs either way, and the
    outcome of the body stands unless the cleanup raises. *)
Definition try_finally {A} (body : M A) (cleanup : M unit) : M A :=
  fun s =>
    match body s with
    | (r, s') =>
        match cleanup s' with
        | (Ok _, s'') => (r, s'')
        | (Raise e, s'') => (Raise e, s'')
        end
    end.

Definition get_state : M state := fun s => (Ok s, s).

Definition emit (e : event) : M unit :=
  fun s =>
    (Ok tt,
     {| current_hw_id := current_hw_id s;
        last_message := last_message s;
        last_message_hw_id := last_message_hw_id s;
        timestamp := timestamp s;
        events := (events s ++ [e])%list |}).

Definition set_current_hw_id (v : json) : M unit :=
  fun s =>
    (Ok tt,
     {| current_hw_id := v;
        last_message := last_message s;
        last_message_hw_id := last_message_hw_id s;
        timestamp := timestamp s;
        events := events s |}).

Definition set_last_message (v : option string) : M unit :=
  fun s =>
    (Ok tt,
     {| current_hw_id := current_hw_id s;
        last_message := v;
        last_message_hw_id := last_message_hw_id s;
        timestamp := timestamp s;
        events := events s |}).

Definition set_last_message_hw_id (v : json) : M unit :=
  fun s =>
    (Ok tt,
     {| current_hw_id := current_hw_id s;
        last_message := last_message s;
        last_message_hw_id := v;
        timestamp := timestamp s;
        events := events s |}).

Definition set_timestamp (v : json) : M unit :=
  fun s =>
    (Ok tt,
     {| current_hw_id := current_hw_id s;
        last_message := last_message s;
        last_message_hw_id := last_message_hw_id s;
        timestamp := v;
        events := events s |}).

(** [logging.debug], [logging.info], [logging.error], [logging.critical]. *)
Definition logging (lvl : level) (msg : string) : M unit := emit (Log lvl msg).

(** [time.sleep(secs)]. *)
Definition time_sleep (secs : Z) : M unit := emit (Sleep secs).

(** [bot.send_message(chat_id, text)]. *)
Definition bot_send_message (bot : Bot) (chat_id : option string) (text : string)
  : M unit :=
  fun s =>
    match bot (events s) chat_id text with
    | None => emit (BotSend chat_id text None) s
    | Some error =>
        match emit (BotSend chat_id text (Some error)) s with
        | (_, s') => (Raise (TelegramError error), s')
        end
    end.

(** ** The functions of [hw_status_bot.py] *)

Definition is_None (v : option string) : bool :=
  match v with
  | None => true
  | Some _ => false
  end.

(** The names [check_tokens] collects: those whose variable is [None]. *)
Definition missed (cfg : config) : list string :=
  filter (fun name => is_None (globals cfg name)) VARIABLE_NAMES.

Definition check_tokens (cfg : config) : M bool :=
  (match missed cfg with
   | [] => ret tt
   | _ :: _ =>
       logging CRITICAL (MISSED_VARIABLES (py_repr (JList (map JStr (missed cfg)))))
   end ;;
   ret (match missed cfg with [] => true | _ :: _ => false end))%stmt.

Definition request (cfg : config) (timestamp : json) : request_params :=
  {| url := ENDPOINT;
     headers := HEADERS cfg;
     params := [("from_date", timestamp)] |}.

(** The loop over [('error', 'code')]: the first key found in the body
    raises. *)
Fixpoint check_denial (keys : list string) (rp : request_params)
    (response_json : json) : result unit :=
  match keys with
  | [] => Ok tt
  | key :: keys' =>
      (found <- contains key response_json ;;
       if (found : bool) then
         value <- getitem response_json key ;;
         Raise (DenialOfServiceError
                  (DENIAL_OF_SERVICE key (py_str value) (url rp)
                     (py_repr (JDict (headers rp)))
                     (py_repr (JDict (params rp)))))
       else check_denial keys' rp response_json)%res
  end.

Definition get_api_answer (cfg : config) (requests_get : transport)
    (timestamp : json) : result json :=
  let rp := request cfg timestamp in
  match requests_get rp with
  | Unreachable error =>
      Raise (ConnectionError
               (NO_RESPONSE error (url rp) (py_repr (JDict (headers rp)))
                  (py_repr (JDict (params rp)))))
  | Response status_code body =>
      if negb (status_code =? 200) then
        Raise (BadResponseError
                 (BAD_RESPONSE (str_int status_code) (url rp)
                    (py_repr (JDict (headers rp)))
                    (py_repr (JDict (params rp)))))
      else
        (response_json <- body ;;
         _ <- check_denial ["error"; "code"] rp response_json ;;
         Ok response_json)%res
  end.

Definition check_response (response : json) : result json :=
  match (homeworks <- getitem response "homeworks" ;;
         if negb (is_list homeworks) then Raise (TypeError INVALID_DATA_TYPE)
         else Ok homeworks)%res with
  | Raise (KeyError _) => Raise (KeyError MISSING_REQUIRED_KEY)
  | r => r
  end.

Fixpoint assoc (key : string) (d : list (string * string)) : option string :=
  match d with
  | [] => None
  | (k, v) :: d' => if String.eqb key k then Some v else assoc key d'
  end.

(** [status in VERDICTS] and [VERDICTS[status]] in one: the verdict when
    the status is a key, [None] when it is not; a list or a dict cannot be
    hashed. *)
Definition find_verdict (homework_status : json) : result (option string) :=
  match homework_status with
  | JStr s => Ok (assoc s VERDICTS)
  | JList _ | JDict _ =>
      Raise (TypeError ("unhashable type: '" ++ type_name homework_status ++ "'"))
  | _ => Ok None
  end.

Definition parse_status (homework : json) : result string :=
  (homework_status <- getitem homework "status" ;;
   found <- find_verdict homework_status ;;
   match found with
   | None => Raise (ValueError (UNEXPECTED_STATUS (py_str homework_status)))
   | Some verdict =>
       homework_name <- getitem homework "homework_name" ;;
       Ok (STATUS_CHANGED (py_str homework_name) verdict)
   end)%res.

(** [last_message == message]: [last_message] is [None] or a string. *)
Definition same_message (last : option string) (message : string) : bool :=
  match last with
  | None => false
  | Some m => String.eqb m message
  end.

(** The gate at the head of [send_message]. *)
Definition suppressed (s : state) (message : string) : bool :=
  same_message (last_message s) message
  && py_eq (last_message_hw_id s) (current_hw_id s).

Definition send_message (cfg : config) (bot : Bot) (message : string) : M unit :=
  (s <- get_state ;;
   if suppressed s message then ret tt
   else
     try_except
       (bot_send_message bot (MY_CHAT_ID cfg) ATTENTION ;;
        bot_send_message bot (MY_CHAT_ID cfg) message ;;
        logging INFO (MESSAGE_SENT message) ;;
        set_last_message (Some message) ;;
        s' <- get_state ;;
        set_last_message_hw_id (current_hw_id s'))
       (fun error => logging ERROR (MESSAGE_SENDING_FAILED (str_exn error))))%stmt.

(** The body of the [try] in [main]'s loop. *)
Definition poll (cfg : config) (bot : Bot) (requests_get : transport) : M unit :=
  (s <- get_state ;;
   response <- lift (get_api_answer cfg requests_get (timestamp s)) ;;
   current_date <- lift (dict_get response "current_date" (timestamp s)) ;;
   set_timestamp current_date ;;
   homeworks <- lift (check_response response) ;;
   if truthy homeworks then
     homework <- lift (first_item homeworks) ;;
     hw_id <- lift (dict_get homework "id" JNull) ;;
     set_current_hw_id hw_id ;;
     message <- lift (parse_status homework) ;;
     send_message cfg bot message
   else logging DEBUG STATUSES_NOT_CHANGED)%stmt.

(** One turn of [while True]: [try] / [except Exception] / [finally]. *)
Definition cycle (cfg : config) (bot : Bot) (requests_get : transport) : M unit :=
  try_finally
    (try_except (poll cfg bot requests_get)
       (fun error =>
          (logging ERROR (ERROR_FOUND (str_exn error)) ;;
           send_message cfg bot (ERROR_FOUND (str_exn error)))%stmt))
    (time_sleep RETRY_TIME).

(** The first [n] turns of [while True], the [k]-th of them run against
    the network as it is then, [net k]. *)
Fixpoint loop (cfg : config) (bot : Bot) (net : nat -> transport)
    (k n : nat) : M unit :=
  match n with
  | O => ret tt
  | S n' => (cycle cfg bot (net k) ;; loop cfg bot net (S k) n')%stmt
  end.

(** [main], cut after [n] turns of its loop; [telegram_Bot] is the class
    [telegram.Bot] and [now] is [int(time.time())].  The result is
    [Raise e] when [main] ends with the exception [e], and [Ok tt] when the
    loop is still running after the [n] turns. *)
Definition main (cfg : config) (telegram_Bot : BotClass)
    (net : nat -> transport) (now : Z) (n : nat) : M unit :=
  (ok <- check_tokens cfg ;;
   if negb ok then raise (MissingVariableError BOT_LAUNCH_STOPPED)
   else
     bot <- lift (telegram_Bot (AWESOM_O_TOKEN cfg)) ;;
     set_timestamp (JNum now) ;;
     loop cfg bot net 0 n)%stmt.

(** ** Vocabulary of the properties *)

(** The state [s] with the events [evs] added to its trace, nothing else
    changed. *)
Definition add_events (s : state) (evs : list event) : state :=
  {| current_hw_id := current_hw_id s;
     last_message := last_message s;
     last_message_hw_id := last_message_hw_id s;
     timestamp := timestamp s;
     events := (events s ++ evs)%list |}.

(** The state after [message] went out from [s]: the two sends and the
    confirmation in the trace, and the notification state set to the
    message and the current homework id. *)
Definition delivered (cfg : config) (s : state) (message : string) : state :=
  {| current_hw_id := current_hw_id s;
     last_message := Some message;
     last_message_hw_id := current_hw_id s;
     timestamp := timestamp s;
     events := (events s ++ [BotSend (MY_CHAT_ID cfg) ATTENTION None;
                             BotSend (MY_CHAT_ID cfg) message None;
                             Log INFO (MESSAGE_SENT message)])%list |}.

(** The state [s] with another current homework id. *)
Definition with_current_hw_id (s : state) (v : json) : state :=
  {| current_hw_id := v;
     last_message := last_message s;
     last_message_hw_id := last_message_hw_id s;
     timestamp := timestamp s;
     events := events s |}.

(** What the two sends of a notification from [s] meet: [None] when the
    client takes both, the error of the first send that raises
    otherwise. *)
Definition delivery_error (cfg : config) (bot : Bot) (s : state)
    (message : string) : option string :=
  match bot (events s) (MY_CHAT_ID cfg) ATTENTION with
  | Some error => Some error
  | None =>
      bot (events s ++ [BotSend (MY_CHAT_ID cfg) ATTENTION None])%list
        (MY_CHAT_ID cfg) message
  end.

(** The calls of [bot.send_message] that a failed delivery from [s] leaves
    in the trace. *)
Definition failed_sends (cfg : config) (bot : Bot) (s : state)
    (message : string) : list event :=
  match bot (events s) (MY_CHAT_ID cfg) ATTENTION with
  | Some error => [BotSend (MY_CHAT_ID cfg) ATTENTION (Some error)]
  | None =>
      [BotSend (MY_CHAT_ID cfg) ATTENTION None;
       BotSend (MY_CHAT_ID cfg) message
         (bot (events s ++ [BotSend (MY_CHAT_ID cfg) ATTENTION None])%list
            (MY_CHAT_ID cfg) message)]
  end.

(** The request parameters as a text shows them: the url, and the [repr]
    of the headers and of the query. *)
Definition shows_request (rp : request_params) (msg : string) : bool :=
  occurs (url rp) msg
  && occurs (py_repr (JDict (headers rp))) msg
  && occurs (py_repr (JDict (params rp))) msg.

Definition is_send (e : event) : bool :=
  match e with
  | BotSend _ _ _ => true
  | _ => false
  end.

(** The calls of [bot.send_message] in a trace. *)
Definition sends (evs : list event) : list event := filter is_send evs.

Definition is_delivery_of (text : string) (e : event) : bool :=
  match e with
  | BotSend _ t None => String.eqb t text
  | _ => false
  end.

(** How many times [text] reached the chat. *)
Definition deliveries (text : string) (evs : list event) : nat :=
  List.length (filter (is_delivery_of text) evs).

Definition is_sleep (e : event) : bool :=
  match e with
  | Sleep _ => true
  | _ => false
  end.

Definition sleeps (evs : list event) : list event := filter is_sleep evs.

(** The three verdict codes. *)
Definition verdict_codes : list string := ["approved"; "rejected"; "reviewing"].

(** A value Python can hash: anything but a list or a dict. *)
Definition hashable (v : json) : bool :=
  match v with
  | JList _ | JDict _ => false
  | _ => true
  end.

(** A credential that is set to a string with at least one character. *)
Definition nonempty (v : option string) : bool :=
  match v with
  | Some (String _ _) => true
  | _ => false
  end.

(** The cursor the next request carries, given the answer to this one: the
    body's [current_date] when the answer is an object that has one, the
    cursor as it was otherwise. *)
Definition next_cursor (answer : result json) (cursor : json) : json :=
  match answer with
  | Ok (JDict d) =>
      match lookup "current_date" d with
      | Some v => v
      | None => cursor
      end
  | _ => cursor
  end.

(** Order of two cursors, both Unix timestamps. *)
Definition cursor_le (a b : json) : Prop :=
  match a, b with
  | JNum x, JNum y => x <= y
  | _, _ => False
  end.

(** A transport whose 200 answers, when they carry a [current_date], carry
    the timestamp [date]. *)
Definition reports (get : transport) (date : Z) : Prop :=
  forall rp d v,
    get rp = Response 200 (Ok (JDict d)) ->
    lookup "current_date" d = Some v ->
    v = JNum date.

(** A service whose clock never goes back: what it reports in turn [k] is
    [clock k], the clock does not decrease from turn to turn, and it is
    not behind the bot's own clock at startup. *)
Definition clock_never_back (net : nat -> transport) (now : Z)
    (clock : nat -> Z) : Prop :=
  now <= clock O
  /\ (forall k, clock k <= clock (S k))
  /\ (forall k, reports (net k) (clock k)).

(** The cursor after the first [n] turns of [main]. *)
Definition cursor_after (cfg : config) (telegram_Bot : BotClass)
    (net : nat -> transport) (now : Z) (n : nat) : json :=
  timestamp (snd (main cfg telegram_Bot net now n initial)).

(** The state [s] with another cursor. *)
Definition with_timestamp (s : state) (v : json) : state :=
  {| current_hw_id := current_hw_id s;
     last_message := last_message s;
     last_message_hw_id := last_message_hw_id s;
     timestamp := v;
     events := events s |}.

(** [homework.get('id')] on the items of a homework: [None] without an
    [id]. *)
Definition homework_id (homework : list (string * json)) : json :=
  match lookup "id" homework with
  | Some v => v
  | None => JNull
  end.

(** The exceptions the body of the [try] can raise once the API call has
    returned: the body or a homework is not an object, the body has no
    [homeworks] or one that is not a list, the first homework has no
    [status], a status that cannot be hashed, an unknown status, or no
    [homework_name]. *)
Definition parsing_failure (e : exn) : Prop :=
  match e with
  | AttributeError _ => True
  | KeyError key =>
      key = MISSING_REQUIRED_KEY \/ key = "status" \/ key = "homework_name"
  | TypeError _ => True
  | ValueError msg => exists status, msg = UNEXPECTED_STATUS status
  | _ => False
  end.

(** An event as [main] produces them: a send goes to [MY_CHAT_ID], a sleep
    lasts [RETRY_TIME]. *)
Definition own_event (cfg : config) (e : event) : Prop :=
  match e with
  | BotSend chat_id _ _ => chat_id = MY_CHAT_ID cfg
  | Sleep secs => secs = RETRY_TIME
  | Log _ _ => True
  end.

(** The notification state stands for a delivery: the last message, when
    there is one, reached the chat; when there is none, no homework id is
    recorded either. *)
Definition records_a_delivery (s : state) : Prop :=
  match last_message s with
  | Some message => (1 <= deliveries message (events s))%nat
  | None => last_message_hw_id s = JNull
  end.

(** ** Sample environments

    Concrete configurations, clients and states on which the properties
    are run. *)

Definition sample_config : config :=
  {| PRACTICUM_TOKEN := Some "practicum-token";
     MY_CHAT_ID := Some "1001";
     AWESOM_O_TOKEN := Some "42:bot-token" |}.

(** A client that delivers every text. *)
Definition bot_delivers : Bot := fun _ _ _ => None.

(** A class whose constructor takes every token and gives the client
    [bot]. *)
Definition always (bot : Bot) : BotClass := fun _ => Ok bot.

(** A class whose constructor refuses a missing or empty token, as
    [telegram.Bot] does, and gives the client [bot] otherwise. *)
Definition refuses_empty (bot : Bot) : BotClass :=
  fun token =>
    match token with
    | Some (String _ _) => Ok bot
    | _ => Raise (InvalidToken "Invalid token")
    end.

(** A client that is down for its first call and delivers from then on. *)
Definition bot_down_once : Bot :=
  fun evs _ _ =>
    match sends evs with
    | [] => Some "Timed out"
    | _ :: _ => None
    end.

(** The state in which homework 5 is the current one and nothing was sent
    yet. *)
Definition sample_state : state := with_current_hw_id initial (JNum 5).

(** The state in which [main] enters its loop at time [now]. *)
Definition started (now : Z) : state :=
  {| current_hw_id := JNull;
     last_message := None;
     last_message_hw_id := JNull;
     timestamp := JNum now;
     events := [] |}.

(** A network on which the service cannot be reached. *)
Definition get_down : transport := fun _ => Unreachable "Connection refused".

(** What [get_api_answer] raises on that network at time 1700000000. *)
Definition sample_failure : exn :=
  ConnectionError
    (NO_RESPONSE "Connection refused" ENDPOINT
       (py_repr (JDict (HEADERS sample_config)))
       (py_repr (JDict [("from_date", JNum 1700000000)]))).

(** A configuration whose API token is set to the empty string. *)
Definition config_empty_token : config :=
  {| PRACTICUM_TOKEN := Some "";
     MY_CHAT_ID := Some "1001";
     AWESOM_O_TOKEN := Some "42:bot-token" |}.

(** A service that reports no homework and the time [date]. *)
Definition get_idle (date : Z) : transport :=
  fun _ => Response 200 (Ok (JDict [("homeworks", JList []);
                                    ("current_date", JNum date)])).

(** A service that answers 404. *)
Definition get_not_found : transport := fun _ => Response 404 (Ok JNull).

(** A service that refuses with both a [code] and an [error] in a 200
    body. *)
Definition get_denied : transport :=
  fun _ => Response 200 (Ok (JDict [("code", JStr "not_authenticated");
                                    ("error", JStr "bad_request")])).

(** A configuration in which only the bot token is set. *)
Definition config_bot_token_only : config :=
  {| PRACTICUM_TOKEN := None;
     MY_CHAT_ID := None;
     AWESOM_O_TOKEN := Some "42:bot-token" |}.

(** Homework 5, named [hw1], with the given status. *)
Definition sample_homework (status : string) : list (string * json) :=
  [("id", JNum 5); ("status", JStr status); ("homework_name", JStr "hw1")].

(** A service that reports [sample_homework status], then an older
    homework, at the time [date]. *)
Definition get_homework (status : string) (date : Z) : transport :=
  fun _ =>
    Response 200
      (Ok (JDict [("homeworks",
                   JList [JDict (sample_homework status);
                          JDict [("id", JNum 4); ("status", JStr "approved");
                                 ("homework_name", JStr "hw0")]]);
                  ("current_date", JNum date)])).

(** A service that answers 200 with the JSON number 5. *)
Definition get_number : transport := fun _ => Response 200 (Ok (JNum 5)).

(** A service that reports [sample_homework status] alone. *)
Definition get_single_homework (status : string) (date : Z) : transport :=
  fun _ =>
    Response 200
      (Ok (JDict [("homeworks", JList [JDict (sample_homework status)]);
                  ("current_date", JNum date)])).

(** The items of the answer of [get_homework]. *)
Definition sample_answer (status : string) (date : Z) : list (string * json) :=
  [("homeworks",
    JList [JDict (sample_homework status);
           JDict [("id", JNum 4); ("status", JStr "approved");
                  ("homework_name", JStr "hw0")]]);
   ("current_date", JNum date)].

(** The state in which the current homework's [id] is the float [NaN] and
    nothing was sent yet. *)
Definition sample_state_nan : state :=
  with_current_hw_id initial (JFloat PrimFloat.nan "nan").

(** A configuration whose bot token is set to the empty string. *)
Definition config_empty_bot_token : config :=
  {| PRACTICUM_TOKEN := Some "practicum-token";
     MY_CHAT_ID := Some "1001";
     AWESOM_O_TOKEN := Some "" |}.

(** * Properties *)

Open Scope list_scope.

(** ** Texts that carry a text *)

Lemma prefix_app : forall x rest, prefix x (x ++ rest)%string = true.
Proof.
  induction x as [|c x IH]; intros rest; simpl.
  - now destruct rest.
  - destruct (ascii_dec c c); [apply IH | contradiction].
Qed.

Lemma occurs_here : forall x rest, occurs x (x ++ rest)%string = true.
Proof.
  intros x rest; pose proof (prefix_app x rest) as H.
  destruct (x ++ rest)%string; simpl; simpl in H; now rewrite H.
Qed.

Lemma occurs_skip :
  forall x before s, occurs x s = true -> occurs x (before ++ s)%string = true.
Proof.
  intros x before s H; induction before as [|c before IH]; simpl; auto.
  rewrite IH; apply orb_true_r.
Qed.

Lemma append_empty : forall x : string, (x ++ "")%string = x.
Proof. induction x as [|c x IH]; simpl; congruence. Qed.

Lemma occurs_end : forall x before, occurs x (before ++ x)%string = true.
Proof.
  intros x before; apply occurs_skip.
  rewrite <- (append_empty x) at 2; apply occurs_here.
Qed.

Lemma prefix_app_l :
  forall x a b, prefix x a = true -> prefix x (a ++ b)%string = true.
Proof.
  induction x as [|c x IH]; intros a b; [now destruct (a ++ b)%string|].
  destruct a as [|c' a]; simpl; [discriminate|].
  destruct (ascii_dec c c'); [apply IH | discriminate].
Qed.

Lemma occurs_app_l :
  forall x a b, occurs x a = true -> occurs x (a ++ b)%string = true.
Proof.
  intros x a b; induction a as [|c a IH]; simpl.
  - rewrite orb_false_r; intros H.
    destruct x; [now destruct b | discriminate].
  - intros H; apply orb_prop in H as [H | H].
    + pose proof (prefix_app_l x (String c a) b H) as H'.
      simpl in H'; now rewrite H'.
    + rewrite (IH H); apply orb_true_r.
Qed.

Lemma occurs_self : forall x, occurs x x = true.
Proof.
  intros x; rewrite <- (append_empty x) at 2; apply occurs_here.
Qed.

(** Finds [x] among the pieces a text is put together from. *)
Ltac find_occurs :=
  solve [ apply occurs_self
        | apply occurs_here
        | apply occurs_end
        | apply occurs_app_l; find_occurs
        | apply occurs_skip; find_occurs ].

(** Nothing occurs in the empty text but the empty text. *)
Lemma occurs_in_empty : forall c x, occurs (String c x) "" = false.
Proof. reflexivity. Qed.

(** Two texts that start alike go on alike. *)
Lemma append_inj_l :
  forall x a b : string, (x ++ a)%string = (x ++ b)%string -> a = b.
Proof.
  induction x as [|c x IH]; intros a b H; [exact H|].
  injection H as H; auto.
Qed.

(** A text that holds what it is said to carry, and the request. *)
Ltac carried :=
  unfold shows_request;
  repeat match goal with
         | |- _ /\ _ => split
         | |- andb _ _ = true => apply andb_true_intro; split
         end;
  find_occurs.

(** ** The trace only grows, one event at a time *)

Lemma add_events_nil : forall s, add_events s [] = s.
Proof.
  intros [c m i t e]; unfold add_events; simpl.
  now rewrite app_nil_r.
Qed.

Lemma add_events_app :
  forall s a b, add_events (add_events s a) b = add_events s (a ++ b).
Proof.
  intros s a b; unfold add_events; simpl.
  now rewrite app_assoc.
Qed.

Lemma emit_add_events : forall e s, emit e s = (Ok tt, add_events s [e]).
Proof. reflexivity. Qed.

(** ** [send_message], case by case *)

Ltac run_stmt :=
  unfold send_message, bind, get_state, try_except, bot_send_message,
    logging, time_sleep, emit, set_last_message, set_last_message_hw_id,
    set_current_hw_id, set_timestamp, ret, raise, lift; simpl.

Lemma send_message_suppressed :
  forall cfg bot message s,
    suppressed s message = true ->
    send_message cfg bot message s = (Ok tt, s).
Proof.
  intros cfg bot message s H; run_stmt.
  now rewrite H.
Qed.

Lemma send_message_delivers :
  forall cfg bot message s,
    suppressed s message = false ->
    delivery_error cfg bot s message = None ->
    send_message cfg bot message s = (Ok tt, delivered cfg s message).
Proof.
  intros cfg bot message s Hgate Hbot; run_stmt.
  rewrite Hgate.
  unfold delivery_error in Hbot.
  destruct (bot (events s) (MY_CHAT_ID cfg) ATTENTION) eqn:E1; [discriminate|].
  simpl; rewrite Hbot; simpl.
  unfold delivered; now rewrite <- !app_assoc.
Qed.

Lemma send_message_fails :
  forall cfg bot message s error,
    suppressed s message = false ->
    delivery_error cfg bot s message = Some error ->
    send_message cfg bot message s =
      (Ok tt, add_events s (failed_sends cfg bot s message
                            ++ [Log ERROR (MESSAGE_SENDING_FAILED error)])).
Proof.
  intros cfg bot message s error Hgate Hbot; run_stmt.
  rewrite Hgate.
  unfold delivery_error in Hbot; unfold failed_sends, add_events.
  destruct (bot (events s) (MY_CHAT_ID cfg) ATTENTION) eqn:E1; simpl.
  - injection Hbot as ->. now rewrite <- !app_assoc.
  - rewrite Hbot; simpl. now rewrite <- !app_assoc.
Qed.

Lemma failed_sends_no_sleep :
  forall cfg bot s message, sleeps (failed_sends cfg bot s message) = [].
Proof.
  intros; unfold failed_sends.
  now destruct (bot (events s) (MY_CHAT_ID cfg) ATTENTION).
Qed.

Lemma sleeps_app : forall a b, sleeps (a ++ b) = sleeps a ++ sleeps b.
Proof. intros; apply filter_app. Qed.

(** [send_message] never raises; it only adds sends and log lines to the
    trace, and leaves the cursor and the current homework id alone. *)
Lemma send_message_total :
  forall cfg bot message s,
    exists s', send_message cfg bot message s = (Ok tt, s')
               /\ timestamp s' = timestamp s
               /\ current_hw_id s' = current_hw_id s
               /\ exists evs, events s' = events s ++ evs /\ sleeps evs = [].
Proof.
  intros cfg bot message s.
  destruct (suppressed s message) eqn:Hgate.
  - exists s; rewrite send_message_suppressed by assumption.
    repeat split; auto. exists []; now rewrite app_nil_r.
  - destruct (delivery_error cfg bot s message) as [error|] eqn:Hbot.
    + rewrite (send_message_fails _ _ _ _ _ Hgate Hbot).
      eexists; repeat split; eauto. simpl; eexists; split; eauto.
      now rewrite sleeps_app, failed_sends_no_sleep.
    + rewrite (send_message_delivers _ _ _ _ Hgate Hbot).
      eexists; repeat split; eauto. simpl; eauto.
Qed.

(** ** When a parsed value equals itself *)
Lemma lookup_app_fresh :
  forall k x pre post,
    existsb (String.eqb k) (map fst pre) = false ->
    lookup k (pre ++ (k, x) :: post)%list = Some x.
Proof.
  intros k x pre post; induction pre as [|[k' y] pre IH]; simpl.
  - now rewrite String.eqb_refl.
  - intros H; apply orb_false_elim in H as [Hk Hpre].
    rewrite Hk; auto.
Qed.

Lemma existsb_eqb_rev :
  forall k (l : list string),
    existsb (String.eqb k) (rev l) = existsb (String.eqb k) l.
Proof.
  intros k l; induction l as [|a l IH]; simpl; auto.
  rewrite existsb_app, IH; simpl.
  rewrite orb_false_r; apply orb_comm.
Qed.

Lemma item_eq_self :
  forall x, py_eq x x = negb (is_nan x) ->
            is_nan x && is_nan x || py_eq x x = true.
Proof. intros x ->; now destruct (is_nan x). Qed.

(** Every parsed value equals itself, except the float [NaN]. *)
Lemma py_eq_self : forall v, py_eq v v = negb (is_nan v).
Proof.
  induction v as [| b | z | f text | s | l IH | d IH] using json_nested_ind;
    simpl.
  - reflexivity.
  - apply Bool.eqb_reflx.
  - apply Z.eqb_refl.
  - now rewrite negb_involutive.
  - apply String.eqb_refl.
  - induction IH as [|x l Hx _ IHl]; auto.
    now rewrite (item_eq_self x Hx), IHl.
  - rewrite Nat.eqb_refl; simpl.
    enough (G : forall pre post, d = (pre ++ post)%list ->
              Forall (fun kv => py_eq (snd kv) (snd kv)
                                = negb (is_nan (snd kv))) post ->
              (fix items (seen : list string) (d0 : list (string * json)) : bool :=
                 match d0 with
                 | [] => true
                 | (k, x) :: d' =>
                     (if existsb (String.eqb k) seen then true
                      else match lookup k d with
                           | Some y => is_nan x && is_nan y || py_eq x y
                           | None => false
                           end) && items (k :: seen) d'
                 end) (rev (map fst pre)) post = true)
      by (apply (G [] d); auto).
    intros pre post; revert pre.
    induction post as [|[k x] post IHpost]; intros pre Hd Hall; auto.
    inversion Hall as [|? ? Hx Hpost]; subst.
    destruct (existsb (String.eqb k) (rev (map fst pre))) eqn:Hseen.
    + simpl.
      specialize (IHpost (pre ++ [(k, x)])%list).
      rewrite map_app, rev_app_distr in IHpost; simpl in IHpost.
      apply IHpost; auto. now rewrite <- app_assoc.
    + rewrite existsb_eqb_rev in Hseen.
      rewrite (lookup_app_fresh k x pre post Hseen).
      simpl in Hx; rewrite (item_eq_self x Hx); simpl.
      specialize (IHpost (pre ++ [(k, x)])%list).
      rewrite map_app, rev_app_distr in IHpost; simpl in IHpost.
      apply IHpost; auto. now rewrite <- app_assoc.
Qed.

(** Two integer ids are equal for [==] exactly when they are the same
    integer. *)
Lemma py_eq_num : forall a b, py_eq (JNum a) (JNum b) = false <-> a <> b.
Proof. intros a b; cbn [py_eq]; apply Z.eqb_neq. Qed.

Lemma same_message_eq :
  forall last message, same_message last message = true <-> last = Some message.
Proof.
  intros [m|] message; simpl; split; try discriminate.
  - intros H; apply String.eqb_eq in H; now subst.
  - intros H; injection H as ->; apply String.eqb_refl.
Qed.

(** After a delivery the gate is shut for the same message, unless the
    homework id is [NaN]. *)
Lemma suppressed_after_delivery :
  forall cfg s message,
    suppressed (delivered cfg s message) message
    = negb (is_nan (current_hw_id s)).
Proof.
  intros; unfold suppressed; simpl.
  now rewrite String.eqb_refl, py_eq_self.
Qed.

Lemma sends_app : forall a b, sends (a ++ b) = sends a ++ sends b.
Proof. intros; apply filter_app. Qed.

(** C3, as the code has it: the gate of [send_message] suppresses a
    repeated (message, id).  When the message is the last delivered one
    and the current homework id equals ([==]) the id recorded with it,
    nothing is sent and the state stays as it is.  So the same message
    sent twice in a row for the same id gives one pair of chat sends,
    provided the id equals itself, which every id does but a float [NaN];
    with a [NaN] id the second call is let through and gives a second
    pair.  Another message (same id) or another id (same message) is sent
    again. *)
Theorem send_message_idempotent :
  forall cfg bot message,
    (forall s,
        last_message s = Some message ->
        py_eq (last_message_hw_id s) (current_hw_id s) = true ->
        send_message cfg bot message s = (Ok tt, s))
    /\
    (forall s,
        suppressed s message = false ->
        delivery_error cfg bot s message = None ->
        let pair := [BotSend (MY_CHAT_ID cfg) ATTENTION None;
                     BotSend (MY_CHAT_ID cfg) message None] in
        let s1 := snd (send_message cfg bot message s) in
        let s2 := snd (send_message cfg bot message s1) in
        s1 = delivered cfg s message
        /\ (is_nan (current_hw_id s) = false ->
            s2 = s1 /\ sends (events s2) = sends (events s) ++ pair)
        /\ (is_nan (current_hw_id s) = true ->
            suppressed s1 message = false
            /\ (delivery_error cfg bot s1 message = None ->
                s2 = delivered cfg s1 message
                /\ sends (events s2) = sends (events s) ++ pair ++ pair))
        /\ (forall message',
               message' <> message ->
               suppressed s1 message' = false
               /\ (delivery_error cfg bot s1 message' = None ->
                   send_message cfg bot message' s1 =
                     (Ok tt, delivered cfg s1 message')))
        /\ (forall hw_id',
               py_eq (current_hw_id s) hw_id' = false ->
               let s1' := with_current_hw_id s1 hw_id' in
               suppressed s1' message = false
               /\ (delivery_error cfg bot s1' message = None ->
                   send_message cfg bot message s1' =
                     (Ok tt, delivered cfg s1' message)))).
Proof.
  intros cfg bot message; split.
  - intros s Hm Hid; apply send_message_suppressed.
    unfold suppressed; rewrite Hid, andb_true_r.
    now apply same_message_eq.
  - intros s Hgate Hbot; cbv zeta.
    rewrite (send_message_delivers _ _ _ _ Hgate Hbot); cbn [snd].
    pose proof (suppressed_after_delivery cfg s message) as Hagain.
    split; [reflexivity|]. split; [|split; [|split]].
    + intros Hnan; rewrite Hnan in Hagain.
      rewrite (send_message_suppressed _ _ _ _ Hagain); cbn [snd].
      split; [reflexivity|].
      unfold delivered; cbn [events]. now rewrite sends_app.
    + intros Hnan; rewrite Hnan in Hagain.
      split; [exact Hagain|].
      intros Hbot'.
      rewrite (send_message_delivers _ _ _ _ Hagain Hbot'); cbn [snd].
      split; [reflexivity|].
      unfold delivered; cbn [events].
      now rewrite !sends_app, <- app_assoc.
    + intros message' Hother.
      assert (Hopen : suppressed (delivered cfg s message) message' = false).
      { unfold suppressed, delivered; cbn [last_message same_message].
        destruct (String.eqb message message') eqn:E; [|reflexivity].
        apply String.eqb_eq in E; congruence. }
      split; [exact Hopen|].
      intros Hbot'; now apply send_message_delivers.
    + intros hw_id' Hother.
      assert (Hopen : suppressed
                        (with_current_hw_id (delivered cfg s message) hw_id')
                        message = false).
      { unfold suppressed, with_current_hw_id, delivered;
          cbn [last_message last_message_hw_id current_hw_id].
        now rewrite Hother, andb_false_r. }
      split; [exact Hopen|].
      intros Hbot'; now apply send_message_delivers.
Qed.

(** On the sample state: the text for homework 5 goes out once, the repeat
    is silent, and another text, or the same text for homework 6, is let
    through again. *)
Lemma send_message_idempotent_witness :
  snd (send_message sample_config bot_delivers "msg"
         (snd (send_message sample_config bot_delivers "msg" sample_state)))
  = snd (send_message sample_config bot_delivers "msg" sample_state)
  /\ suppressed
       (snd (send_message sample_config bot_delivers "msg" sample_state))
       "msg2" = false
  /\ suppressed
       (with_current_hw_id
          (snd (send_message sample_config bot_delivers "msg" sample_state))
          (JNum 6))
       "msg" = false.
Proof.
  destruct (send_message_idempotent sample_config bot_delivers "msg")
    as [_ Htwice].
  destruct (Htwice sample_state eq_refl eq_refl)
    as (_ & Hsame & _ & Hother & Hid).
  split; [|split].
  - exact (proj1 (Hsame eq_refl)).
  - apply (Hother "msg2"); discriminate.
  - apply (Hid (JNum 6)); reflexivity.
Defined.

(** C3 as stated fails for a homework whose [id] is [NaN]: the same text
    sent twice in a row for that id goes out twice, two pairs of sends. *)
Lemma nan_id_sent_twice :
  current_hw_id sample_state_nan = last_message_hw_id
                                     (snd (send_message sample_config bot_delivers
                                             "msg" sample_state_nan))
  /\ sends (events (snd (send_message sample_config bot_delivers "msg"
                      (snd (send_message sample_config bot_delivers "msg"
                              sample_state_nan)))))
     = [BotSend (Some "1001") ATTENTION None; BotSend (Some "1001") "msg" None;
        BotSend (Some "1001") ATTENTION None; BotSend (Some "1001") "msg" None].
Proof. split; vm_compute; reflexivity. Qed.

(** C6: when the Telegram client raises inside [send_message], the call
    still returns normally, the last message and its homework id are what
    they were, one error line is logged after the failed call, and the same
    message for the same id is not suppressed at the next attempt. *)
Theorem send_message_failure_is_local :
  forall cfg bot message s error,
    suppressed s message = false ->
    delivery_error cfg bot s message = Some error ->
    let s' := snd (send_message cfg bot message s) in
    fst (send_message cfg bot message s) = Ok tt
    /\ s' = add_events s (failed_sends cfg bot s message
                          ++ [Log ERROR (MESSAGE_SENDING_FAILED error)])
    /\ last_message s' = last_message s
    /\ last_message_hw_id s' = last_message_hw_id s
    /\ current_hw_id s' = current_hw_id s
    /\ suppressed s' message = false
    /\ (delivery_error cfg bot s' message = None ->
        send_message cfg bot message s' = (Ok tt, delivered cfg s' message)).
Proof.
  intros cfg bot message s error Hgate Hbot; cbv zeta.
  rewrite (send_message_fails _ _ _ _ _ Hgate Hbot); simpl.
  assert (Hgate' : suppressed
                     (add_events s (failed_sends cfg bot s message
                                    ++ [Log ERROR (MESSAGE_SENDING_FAILED error)]))
                     message = false) by exact Hgate.
  repeat split; auto.
  intros Hnext; now apply send_message_delivers.
Qed.

(** A client that is down once: the first attempt fails and is logged, the
    second attempt delivers. *)
Lemma send_message_failure_is_local_witness :
  last_message (snd (send_message sample_config bot_down_once "msg" sample_state))
  = None
  /\ suppressed (snd (send_message sample_config bot_down_once "msg" sample_state))
       "msg" = false.
Proof.
  destruct (send_message_failure_is_local sample_config bot_down_once "msg"
              sample_state "Timed out" eq_refl eq_refl)
    as (_ & _ & Hlast & _ & _ & Hgate & _).
  split.
  - exact Hlast.
  - exact Hgate.
Defined.

(** ** One turn of the loop *)

Ltac poll_cases :=
  unfold poll, bind, get_state, lift, set_timestamp, set_current_hw_id,
    logging, emit;
  repeat match goal with
    | |- context [match ?r with Ok _ => _ | Raise _ => _ end] =>
        lazymatch r with
        | get_api_answer _ _ _ => destruct r eqn:?
        | dict_get _ _ _ => destruct r eqn:?
        | check_response _ => destruct r eqn:?
        | first_item _ => destruct r eqn:?
        | parse_status _ => destruct r eqn:?
        end
    | |- context [if truthy ?h then _ else _] => destruct (truthy h) eqn:?
    end.

(** When the body of the [try] raises, it has sent and logged nothing and
    the notification state is untouched. *)
Lemma poll_raise_silent :
  forall cfg bot get s e s1,
    poll cfg bot get s = (Raise e, s1) ->
    events s1 = events s
    /\ last_message s1 = last_message s
    /\ last_message_hw_id s1 = last_message_hw_id s.
Proof.
  intros cfg bot get s e s1.
  poll_cases; intros H; try discriminate;
    try (injection H as <- <-; simpl; auto).
  match type of H with
  | send_message ?c ?b ?m ?s0 = _ =>
      destruct (send_message_total c b m s0) as (s' & Hs & _)
  end.
  rewrite Hs in H; discriminate.
Qed.

(** The events of one call of [poll] are added after those already there,
    and none of them is a sleep. *)
Lemma poll_extends :
  forall cfg bot get s,
    exists evs,
      events (snd (poll cfg bot get s)) = events s ++ evs /\ sleeps evs = [].
Proof.
  intros cfg bot get s.
  poll_cases; simpl;
    try (exists []; now rewrite app_nil_r); eauto.
  match goal with
  | |- context [send_message ?c ?b ?m ?s0] =>
      destruct (send_message_total c b m s0) as (s' & Hs & _ & _ & evs & He & Hz)
  end.
  rewrite Hs; simpl. exists evs; split; [exact He | exact Hz].
Qed.

(** [cycle] spelled out: the turn ends in the sleep whether the body
    raised or not, and after a raise come the error line and the failure
    notification. *)
Lemma cycle_unfold :
  forall cfg bot get s,
    cycle cfg bot get s =
      match poll cfg bot get s with
      | (Ok _, s1) => (Ok tt, add_events s1 [Sleep RETRY_TIME])
      | (Raise e, s1) =>
          (Ok tt,
           add_events
             (snd (send_message cfg bot (ERROR_FOUND (str_exn e))
                     (add_events s1 [Log ERROR (ERROR_FOUND (str_exn e))])))
             [Sleep RETRY_TIME])
      end.
Proof.
  intros cfg bot get s.
  unfold cycle, try_finally, try_except.
  destruct (poll cfg bot get s) as [[[]|e] s1]; [reflexivity|].
  unfold bind at 1, logging at 1; rewrite emit_add_events.
  destruct (send_message_total cfg bot (ERROR_FOUND (str_exn e))
              (add_events s1 [Log ERROR (ERROR_FOUND (str_exn e))]))
    as (s2 & Hs & _).
  now rewrite Hs.
Qed.

(** A turn never raises: it ends in the sleep, the only sleep of the
    turn. *)
Lemma cycle_total :
  forall cfg bot get s,
    exists evs,
      cycle cfg bot get s = (Ok tt, snd (cycle cfg bot get s))
      /\ events (snd (cycle cfg bot get s)) = events s ++ evs ++ [Sleep 600]
      /\ sleeps evs = [].
Proof.
  intros cfg bot get s.
  rewrite cycle_unfold.
  destruct (poll_extends cfg bot get s) as (evs & He & Hz).
  destruct (poll cfg bot get s) as [[[]|e] s1]; simpl in *.
  - exists evs; repeat split; auto.
    now rewrite He, <- app_assoc.
  - destruct (send_message_total cfg bot (ERROR_FOUND (str_exn e))
                (add_events s1 [Log ERROR (ERROR_FOUND (str_exn e))]))
      as (s2 & Hs & _ & _ & evs2 & He2 & Hz2).
    rewrite Hs; simpl.
    exists (evs ++ [Log ERROR (ERROR_FOUND (str_exn e))] ++ evs2).
    repeat split.
    + rewrite He2; simpl. rewrite He. now rewrite <- !app_assoc.
    + now rewrite !sleeps_app, Hz, Hz2.
Qed.

Lemma check_tokens_unfold :
  forall cfg s,
    check_tokens cfg s =
      match missed cfg with
      | [] => (Ok true, s)
      | _ :: _ =>
          (Ok false,
           add_events s
             [Log CRITICAL
                (MISSED_VARIABLES (py_repr (JList (map JStr (missed cfg)))))])
      end.
Proof.
  intros cfg s; unfold check_tokens.
  destruct (missed cfg); reflexivity.
Qed.

(** The first [n] turns never raise and sleep [n] times. *)
Lemma loop_total :
  forall cfg bot net n k s,
    exists s',
      loop cfg bot net k n s = (Ok tt, s')
      /\ List.length (sleeps (events s')) = (List.length (sleeps (events s)) + n)%nat.
Proof.
  intros cfg bot net n; induction n as [|n IH]; intros k s; simpl.
  - exists s; split; [reflexivity | lia].
  - destruct (cycle_total cfg bot (net k) s) as (evs & Hc & He & Hz).
    unfold bind; rewrite Hc.
    destruct (IH (S k) (snd (cycle cfg bot (net k) s))) as (s' & Hl & Hn).
    exists s'; split; [exact Hl|].
    rewrite Hn, He, !sleeps_app, Hz; simpl.
    rewrite length_app; simpl; lia.
Qed.

(** [main] either stops at startup, in [check_tokens] or in the
    constructor of the client, or enters the loop at time [now]. *)
Lemma main_unfold :
  forall cfg telegram_Bot net now n,
    main cfg telegram_Bot net now n initial =
      match missed cfg with
      | [] =>
          match telegram_Bot (AWESOM_O_TOKEN cfg) with
          | Ok bot => loop cfg bot net 0 n (started now)
          | Raise e => (Raise e, initial)
          end
      | _ :: _ =>
          (Raise (MissingVariableError BOT_LAUNCH_STOPPED),
           add_events initial
             [Log CRITICAL
                (MISSED_VARIABLES (py_repr (JList (map JStr (missed cfg)))))])
      end.
Proof.
  intros cfg telegram_Bot net now n; unfold main, bind, lift.
  rewrite check_tokens_unfold.
  destruct (missed cfg); [|reflexivity].
  cbn [negb]. destruct (telegram_Bot (AWESOM_O_TOKEN cfg)); reflexivity.
Qed.

(** C1, as the code has it: a failure inside a turn never ends the loop.
    Every turn returns normally and ends in the 600-second sleep, whatever
    the body of the [try] did.  When the body raises, the error line with
    the exception's text is logged and [send_message] is called with the
    same text before the sleep: the text goes out with the attention line
    when the gate is open and the client takes both sends, a failing send
    leaves its own error line, and a shut gate leaves nothing.  [main] ends
    at startup only, before any turn: with [MissingVariableError] when
    [check_tokens] fails, and with the exception of [telegram.Bot] when the
    constructor refuses the bot token; otherwise it is still running after
    any number of turns. *)
Theorem main_loop_survives_failures :
  forall cfg telegram_Bot net now,
    (forall bot get s,
        exists evs,
          cycle cfg bot get s = (Ok tt, snd (cycle cfg bot get s))
          /\ events (snd (cycle cfg bot get s)) = events s ++ evs ++ [Sleep 600]
          /\ sleeps evs = [])
    /\ (forall bot get s e s1,
           poll cfg bot get s = (Raise e, s1) ->
           let text := ERROR_FOUND (str_exn e) in
           let logged := add_events s1 [Log ERROR text] in
           events s1 = events s
           /\ text = ("Ошибка в работе программы: " ++ str_exn e ++ ".")%string
           /\ occurs (str_exn e) text = true
           /\ (suppressed logged text = true ->
               cycle cfg bot get s = (Ok tt, add_events logged [Sleep 600]))
           /\ (suppressed logged text = false ->
               delivery_error cfg bot logged text = None ->
               cycle cfg bot get s =
                 (Ok tt, add_events (delivered cfg logged text) [Sleep 600]))
           /\ (forall error,
                  suppressed logged text = false ->
                  delivery_error cfg bot logged text = Some error ->
                  cycle cfg bot get s =
                    (Ok tt,
                     add_events logged
                       (failed_sends cfg bot logged text
                        ++ [Log ERROR (MESSAGE_SENDING_FAILED error);
                            Sleep 600]))))
    /\ (fst (check_tokens cfg initial) = Ok false ->
        forall n,
          main cfg telegram_Bot net now n initial =
            (Raise (MissingVariableError "Запуск бота остановлен."),
             snd (check_tokens cfg initial))
          /\ sleeps (events (snd (check_tokens cfg initial))) = []
          /\ sends (events (snd (check_tokens cfg initial))) = [])
    /\ (forall e,
           fst (check_tokens cfg initial) = Ok true ->
           telegram_Bot (AWESOM_O_TOKEN cfg) = Raise e ->
           forall n, main cfg telegram_Bot net now n initial = (Raise e, initial))
    /\ (forall bot,
           fst (check_tokens cfg initial) = Ok true ->
           telegram_Bot (AWESOM_O_TOKEN cfg) = Ok bot ->
           forall n,
             exists s',
               main cfg telegram_Bot net now n initial = (Ok tt, s')
               /\ List.length (sleeps (events s')) = n)
    /\ (forall n e,
           fst (main cfg telegram_Bot net now n initial) = Raise e ->
           (e = MissingVariableError BOT_LAUNCH_STOPPED
            /\ fst (check_tokens cfg initial) = Ok false)
           \/ (telegram_Bot (AWESOM_O_TOKEN cfg) = Raise e
               /\ fst (check_tokens cfg initial) = Ok true)).
Proof.
  intros cfg telegram_Bot net now.
  split; [intros bot get s; apply cycle_total|].
  split.
  { intros bot get s e s1 Hpoll; cbv zeta.
    split; [eapply poll_raise_silent; eauto|].
    split; [reflexivity|].
    split; [unfold ERROR_FOUND; find_occurs|].
    rewrite cycle_unfold, Hpoll.
    split; [|split].
    - intros Hgate; now rewrite (send_message_suppressed _ _ _ _ Hgate).
    - intros Hgate Hbot; now rewrite (send_message_delivers _ _ _ _ Hgate Hbot).
    - intros error Hgate Hbot.
      rewrite (send_message_fails _ _ _ _ _ Hgate Hbot); cbn [snd].
      now rewrite add_events_app, <- app_assoc. }
  rewrite check_tokens_unfold.
  pose proof (main_unfold cfg telegram_Bot net now) as Hmain.
  destruct (missed cfg) as [|name names]; cbn [fst snd].
  - (* every variable is set *)
    split; [discriminate|].
    split; [intros e _ He n; now rewrite Hmain, He|].
    split.
    + intros bot _ Hbot n; rewrite Hmain, Hbot.
      destruct (loop_total cfg bot net n 0%nat (started now)) as (s' & Hl & Hn).
      exists s'; split; [exact Hl | exact Hn].
    + intros n e; rewrite Hmain.
      destruct (telegram_Bot (AWESOM_O_TOKEN cfg)) as [bot|e'].
      * destruct (loop_total cfg bot net n 0%nat (started now)) as (s' & Hl & _).
        rewrite Hl; discriminate.
      * cbn [fst]; intros H; injection H as <-; right; split; reflexivity.
  - (* a variable is missing: [main] raises before the loop *)
    split; [intros _ n; rewrite Hmain; repeat split|].
    split; [discriminate|].
    split; [discriminate|].
    intros n e; rewrite Hmain; cbn [fst].
    intros H; injection H as <-; left; split; reflexivity.
Qed.

(** With the service unreachable all along, [main] is still running after
    three turns and has slept three times. *)
Lemma main_loop_survives_failures_witness :
  exists s',
    main sample_config (refuses_empty bot_delivers) (fun _ => get_down)
      1700000000 3 initial
    = (Ok tt, s')
    /\ List.length (sleeps (events s')) = 3%nat.
Proof.
  destruct (main_loop_survives_failures sample_config
              (refuses_empty bot_delivers)
              (fun _ => get_down) 1700000000) as (_ & _ & _ & _ & Hrun & _).
  exact (Hrun bot_delivers eq_refl eq_refl 3%nat).
Defined.

(** C1 as stated fails on a bot token that is set but empty: [check_tokens]
    passes, the constructor of the client refuses the token, and [main]
    ends with [InvalidToken], not with [MissingVariableError], before any
    turn. *)
Lemma main_stops_on_invalid_token :
  fst (check_tokens config_empty_bot_token initial) = Ok true
  /\ main config_empty_bot_token (refuses_empty bot_delivers)
       (fun _ => get_down) 1700000000 3 initial
     = (Raise (InvalidToken "Invalid token"), initial).
Proof. split; reflexivity. Qed.

(** ** Failure notifications and the gate *)

Lemma deliveries_app :
  forall text a b,
    deliveries text (a ++ b) = (deliveries text a + deliveries text b)%nat.
Proof.
  intros; unfold deliveries. now rewrite filter_app, length_app.
Qed.

(** A failure description is never the attention line. *)
Lemma ERROR_FOUND_not_ATTENTION :
  forall error, String.eqb ATTENTION (ERROR_FOUND error) = false.
Proof. reflexivity. Qed.

Lemma failed_sends_deliver_nothing :
  forall cfg bot s text error,
    String.eqb ATTENTION text = false ->
    delivery_error cfg bot s text = Some error ->
    deliveries text (failed_sends cfg bot s text) = 0%nat.
Proof.
  intros cfg bot s text error Hatt; unfold delivery_error, failed_sends.
  destruct (bot (events s) (MY_CHAT_ID cfg) ATTENTION); intros H.
  - reflexivity.
  - rewrite H; unfold deliveries; cbn [filter is_delivery_of].
    now rewrite Hatt.
Qed.

Lemma delivered_delivers_once :
  forall cfg s text,
    String.eqb ATTENTION text = false ->
    deliveries text (events (delivered cfg s text))
    = (deliveries text (events s) + 1)%nat.
Proof.
  intros cfg s text Hatt; unfold delivered; cbn [events].
  rewrite deliveries_app; unfold deliveries at 2.
  cbn [filter is_delivery_of]; rewrite Hatt, String.eqb_refl; reflexivity.
Qed.

(** One call of [send_message] delivers its text at most once. *)
Lemma send_message_deliveries_le :
  forall cfg bot text s,
    String.eqb ATTENTION text = false ->
    (deliveries text (events (snd (send_message cfg bot text s)))
     <= deliveries text (events s) + 1)%nat.
Proof.
  intros cfg bot text s Hatt.
  destruct (suppressed s text) eqn:Hgate.
  - rewrite send_message_suppressed by assumption; cbn [snd]; lia.
  - destruct (delivery_error cfg bot s text) as [error|] eqn:Hbot.
    + rewrite (send_message_fails _ _ _ _ _ Hgate Hbot).
      cbn [snd add_events events].
      rewrite !deliveries_app.
      rewrite (failed_sends_deliver_nothing _ _ _ _ _ Hatt Hbot).
      unfold deliveries at 2; cbn [filter is_delivery_of List.length]; lia.
    + rewrite (send_message_delivers _ _ _ _ Hgate Hbot); cbn [snd].
      rewrite delivered_delivers_once by assumption; lia.
Qed.

Lemma deliveries_log :
  forall text lvl msg, deliveries text [Log lvl msg] = 0%nat.
Proof. reflexivity. Qed.

Lemma deliveries_sleep :
  forall text secs, deliveries text [Sleep secs] = 0%nat.
Proof. reflexivity. Qed.

Ltac count_deliveries :=
  rewrite ?deliveries_app, ?deliveries_log, ?deliveries_sleep.

(** C10, as the code has it: when two turns in a row fail with the same
    failure description while the current homework id stays the same, and
    that id equals itself (it is not a float NaN), the description reaches
    the chat at most once; when the first turn's notification was
    suppressed, or went out under such an id, the second turn's
    [send_message] returns without calling the client.  When the first
    turn's delivery failed, the notification state is as it was before the
    turn, the gate of the second turn's [send_message] is open and the
    client is called again: the description goes out when the client takes
    both sends. *)
Theorem failure_notification_at_most_once :
  forall cfg bot get1 get2 s e1 e2 s1 s2,
    poll cfg bot get1 s = (Raise e1, s1) ->
    poll cfg bot get2 (snd (cycle cfg bot get1 s)) = (Raise e2, s2) ->
    str_exn e2 = str_exn e1 ->
    current_hw_id s2 = current_hw_id s1 ->
    let chat := MY_CHAT_ID cfg in
    let text := ERROR_FOUND (str_exn e1) in
    let first := add_events s1 [Log ERROR text] in
    let second := add_events s2 [Log ERROR text] in
    let after1 := snd (cycle cfg bot get1 s) in
    let after2 := snd (cycle cfg bot get2 after1) in
    occurs (str_exn e1) text = true
    /\ (is_nan (current_hw_id s1) = false ->
        (deliveries text (events after2) <= deliveries text (events s) + 1)%nat)
    /\ (suppressed s1 text = true
        \/ (delivery_error cfg bot first text = None
            /\ is_nan (current_hw_id s1) = false) ->
        events after2 = events after1 ++ [Log ERROR text; Sleep 600])
    /\ (forall error,
          suppressed s1 text = false ->
          delivery_error cfg bot first text = Some error ->
          last_message after1 = last_message s
          /\ last_message_hw_id after1 = last_message_hw_id s
          /\ events second = events after1 ++ [Log ERROR text]
          /\ suppressed second text = false
          /\ (forall error2,
                delivery_error cfg bot second text = Some error2 ->
                events after2
                = events after1
                  ++ Log ERROR text
                     :: failed_sends cfg bot second text
                  ++ [Log ERROR (MESSAGE_SENDING_FAILED error2); Sleep 600])
          /\ (delivery_error cfg bot second text = None ->
              events after2
              = events after1
                ++ [Log ERROR text;
                    BotSend chat ATTENTION None;
                    BotSend chat text None;
                    Log INFO (MESSAGE_SENT text);
                    Sleep 600]
              /\ last_message after2 = Some text
              /\ last_message_hw_id after2 = current_hw_id s1)).
Proof.
  intros cfg bot get1 get2 s e1 e2 s1 s2 H1 H2 Htext Hid; cbv zeta.
  split; [unfold ERROR_FOUND; find_occurs|].
  pose proof (ERROR_FOUND_not_ATTENTION (str_exn e1)) as Hatt.
  destruct (poll_raise_silent _ _ _ _ _ _ H1) as (Hev1 & Hlm1 & Hli1).
  destruct (poll_raise_silent _ _ _ _ _ _ H2) as (Hev2 & Hlm2 & Hli2).
  assert (Hc2 := cycle_unfold cfg bot get2 (snd (cycle cfg bot get1 s))).
  rewrite H2, Htext in Hc2; rewrite Hc2; clear Hc2.
  set (text := ERROR_FOUND (str_exn e1)) in *.
  set (sB := add_events s2 [Log ERROR text]).
  assert (HgateB : suppressed sB text
                   = same_message (last_message (snd (cycle cfg bot get1 s))) text
                     && py_eq (last_message_hw_id (snd (cycle cfg bot get1 s)))
                          (current_hw_id s1)).
  { unfold suppressed, sB; simpl. now rewrite Hlm2, Hli2, Hid. }
  assert (HevB : events sB = events (snd (cycle cfg bot get1 s)) ++ [Log ERROR text]).
  { unfold sB; simpl. now rewrite Hev2. }
  assert (HidB : current_hw_id sB = current_hw_id s1) by exact Hid.
  clearbody sB; clear H2 Hev2 Hlm2 Hli2 Hid Htext s2 e2 get2.
  revert HgateB HevB.
  rewrite (cycle_unfold cfg bot get1 s), H1; fold text; cbn [snd].
  set (sA := add_events s1 [Log ERROR text]).
  assert (HgateA : suppressed sA text = suppressed s1 text) by reflexivity.
  assert (HevA : events sA = events s ++ [Log ERROR text]).
  { unfold sA; simpl. now rewrite Hev1. }
  destruct (suppressed s1 text) eqn:Hg1.
  - (* the first notification is suppressed: so is the second *)
    rewrite (send_message_suppressed _ _ _ _ HgateA).
    cbn [snd add_events events last_message last_message_hw_id sA].
    intros HgateB HevB.
    assert (HB : suppressed sB text = true).
    { rewrite HgateB. exact Hg1. }
    rewrite (send_message_suppressed _ _ _ _ HB).
    cbn [snd add_events events].
    split; [| split].
    + intros _. rewrite HevB, Hev1; count_deliveries; lia.
    + intros _. rewrite HevB. now rewrite <- !app_assoc.
    + intros error Hc; discriminate.
  - destruct (delivery_error cfg bot sA text) as [error|] eqn:HbotA.
    + (* the first delivery fails: the second call is one more attempt *)
      rewrite (send_message_fails _ _ _ _ _ HgateA HbotA).
      cbn [snd add_events events last_message last_message_hw_id sA].
      intros HgateB HevB.
      assert (HB : suppressed sB text = false).
      { rewrite HgateB. exact Hg1. }
      split; [| split].
      * intros _.
        pose proof (send_message_deliveries_le cfg bot text sB Hatt) as Hle.
        rewrite HevB in Hle. cbn [events add_events].
        revert Hle; rewrite Hev1; count_deliveries.
        rewrite (failed_sends_deliver_nothing _ _ _ _ _ Hatt HbotA); lia.
      * intros [Hc | [Hc _]]; discriminate.
      * intros error' _ _.
        split; [exact Hlm1 | split; [exact Hli1 | split; [exact HevB |]]].
        split; [exact HB | split].
        -- intros error2 Hbot2.
           rewrite (send_message_fails _ _ _ _ _ HB Hbot2).
           cbn [snd add_events events]; rewrite HevB.
           rewrite <- !app_assoc; reflexivity.
        -- intros Hbot2.
           rewrite (send_message_delivers _ _ _ _ HB Hbot2).
           cbn [snd add_events delivered events last_message
                  last_message_hw_id].
           rewrite HevB, HidB.
           rewrite <- !app_assoc; repeat split; reflexivity.
    + (* the first delivery goes out: the second call is suppressed *)
      rewrite (send_message_delivers _ _ _ _ HgateA HbotA).
      cbn [snd add_events delivered events last_message last_message_hw_id
             current_hw_id sA same_message].
      intros HgateB HevB.
      rewrite String.eqb_refl, py_eq_self in HgateB.
      cbn [andb] in HgateB.
      assert (Hsilent :
                is_nan (current_hw_id s1) = false ->
                send_message cfg bot text sB = (Ok tt, sB)).
      { intros Hnan; apply send_message_suppressed.
        now rewrite HgateB, Hnan. }
      split; [| split].
      * intros Hnan; rewrite (Hsilent Hnan).
        cbn [snd add_events events].
        rewrite HevB, Hev1.
        pose proof (delivered_delivers_once cfg sA text Hatt) as Hd.
        unfold delivered in Hd; cbn [events] in Hd.
        rewrite HevA in Hd; revert Hd.
        count_deliveries; lia.
      * intros [Hc | [_ Hnan]]; [discriminate|].
        rewrite (Hsilent Hnan); cbn [snd add_events events].
        rewrite HevB. now rewrite <- !app_assoc.
      * intros error Hc; discriminate.
Qed.

(** With a client that delivers, the second of two failing turns adds its
    error line and its sleep, and no send. *)
Lemma failure_notification_at_most_once_witness :
  (deliveries (ERROR_FOUND (str_exn sample_failure))
     (events (snd (cycle sample_config bot_delivers get_down
                     (snd (cycle sample_config bot_delivers get_down
                             (started 1700000000))))))
   <= 0 + 1)%nat
  /\ events (snd (cycle sample_config bot_delivers get_down
                    (snd (cycle sample_config bot_delivers get_down
                            (started 1700000000)))))
     = events (snd (cycle sample_config bot_delivers get_down
                      (started 1700000000)))
       ++ [Log ERROR (ERROR_FOUND (str_exn sample_failure)); Sleep 600].
Proof.
  destruct (failure_notification_at_most_once sample_config bot_delivers
              get_down get_down (started 1700000000)
              sample_failure sample_failure
              (started 1700000000)
              (snd (cycle sample_config bot_delivers get_down
                      (started 1700000000)))
              eq_refl eq_refl eq_refl eq_refl) as (_ & Hle & Hsilent & _).
  split.
  - exact (Hle eq_refl).
  - apply Hsilent; right; split; reflexivity.
Defined.

(** C10 as stated fails when the client is down during the first failing
    turn: both turns fail with the same description and the same homework
    id, the first delivery attempt raises, and the second turn's
    [send_message] delivers the description. *)
Lemma second_failure_notification_delivered :
  poll sample_config bot_down_once get_down (started 1700000000)
  = (Raise sample_failure, started 1700000000)
  /\ fst (poll sample_config bot_down_once get_down
            (snd (cycle sample_config bot_down_once get_down
                    (started 1700000000))))
     = Raise sample_failure
  /\ current_hw_id
       (snd (poll sample_config bot_down_once get_down
               (snd (cycle sample_config bot_down_once get_down
                       (started 1700000000)))))
     = current_hw_id (started 1700000000)
  /\ sends (events (snd (cycle sample_config bot_down_once get_down
                           (started 1700000000))))
     = [BotSend (Some "1001") ATTENTION (Some "Timed out")]
  /\ sends (events (snd (cycle sample_config bot_down_once get_down
                           (snd (cycle sample_config bot_down_once get_down
                                   (started 1700000000))))))
     = [BotSend (Some "1001") ATTENTION (Some "Timed out");
        BotSend (Some "1001") ATTENTION None;
        BotSend (Some "1001") (ERROR_FOUND (str_exn sample_failure)) None].
Proof. repeat split; vm_compute; reflexivity. Qed.

(** ** [get_api_answer] *)

Lemma has_key_lookup :
  forall key d, has_key key d = true <-> exists v, lookup key d = Some v.
Proof.
  intros key d; unfold has_key.
  destruct (lookup key d) as [v|]; split; intros H; eauto; try discriminate.
  destruct H as [v H]; discriminate.
Qed.

(** On a body that is a JSON object, the answer is decided by the keys
    [error] and [code], looked up in this order. *)
Lemma get_api_answer_object :
  forall cfg requests_get timestamp d,
    requests_get (request cfg timestamp) = Response 200 (Ok (JDict d)) ->
    get_api_answer cfg requests_get timestamp =
      let rp := request cfg timestamp in
      let denial key value :=
        Raise (DenialOfServiceError
                 (DENIAL_OF_SERVICE key (py_str value) (url rp)
                    (py_repr (JDict (headers rp)))
                    (py_repr (JDict (params rp))))) in
      match lookup "error" d with
      | Some value => denial "error" value
      | None =>
          match lookup "code" d with
          | Some value => denial "code" value
          | None => Ok (JDict d)
          end
      end.
Proof.
  intros cfg requests_get timestamp d Hget.
  unfold get_api_answer; rewrite Hget.
  cbn [Z.eqb Pos.eqb negb rbind check_denial contains getitem].
  unfold has_key.
  destruct (lookup "error" d) as [v|]; [reflexivity|].
  destruct (lookup "code" d) as [v|]; reflexivity.
Qed.

(** Whatever [get_api_answer] returns is the parsed body of a 200 answer. *)
Lemma get_api_answer_ok_inv :
  forall cfg get cursor body,
    get_api_answer cfg get cursor = Ok body ->
    get (request cfg cursor) = Response 200 (Ok body).
Proof.
  intros cfg get cursor body; unfold get_api_answer.
  destruct (get (request cfg cursor)) as [error | status_code [b | e]];
    try discriminate;
    destruct (status_code =? 200) eqn:E; cbn [negb rbind]; try discriminate.
  apply Z.eqb_eq in E; subst.
  destruct (check_denial ["error"; "code"] (request cfg cursor) b);
    cbn [rbind]; congruence.
Qed.

(** C2, as the code has it: what [get_api_answer] does with everything the
    transport can give.  The request holds the endpoint, the authorization
    header made of the API token, and the cursor as [from_date].  A
    transport failure raises [ConnectionError], whose text holds the
    transport's error and the request parameters, and returns no body; a
    status code other than 200 raises [BadResponseError], whose text holds
    the status code and the request parameters; a 200 body that is an
    object holding the key [error] or [code] raises [DenialOfServiceError],
    whose text holds that key, its value and the request parameters; a 200
    body that is an object without these keys is returned as parsed, and
    nothing but the parsed body of a 200 answer is ever returned.  A 200
    body that is no object falls in none of these cases: a body that does
    not parse lets the parser's exception through, a number, a boolean or
    [null] raises [TypeError] in the [in] test, and a list or a string is
    returned as parsed unless it holds [error] or [code], where indexing
    it raises [TypeError]. *)
Theorem get_api_answer_classifies :
  forall cfg requests_get timestamp,
    let rp := request cfg timestamp in
    let hdrs := py_repr (JDict (headers rp)) in
    let prms := py_repr (JDict (params rp)) in
    let answer := get_api_answer cfg requests_get timestamp in
    (url rp = ENDPOINT /\ headers rp = HEADERS cfg
     /\ params rp = [("from_date", timestamp)]
     /\ hdrs = ("{'Authorization': "
                ++ repr_str ("OAuth " ++ str_opt (PRACTICUM_TOKEN cfg))
                ++ "}")%string
     /\ prms = ("{'from_date': " ++ py_repr timestamp ++ "}")%string)
    /\ (forall error,
           requests_get rp = Unreachable error ->
           let msg := NO_RESPONSE error (url rp) hdrs prms in
           answer = Raise (ConnectionError msg)
           /\ occurs error msg = true
           /\ shows_request rp msg = true)
    /\ (forall status_code body,
           requests_get rp = Response status_code body ->
           status_code <> 200 ->
           let msg := BAD_RESPONSE (str_int status_code) (url rp) hdrs prms in
           answer = Raise (BadResponseError msg)
           /\ occurs (str_int status_code) msg = true
           /\ shows_request rp msg = true)
    /\ (forall d,
           requests_get rp = Response 200 (Ok (JDict d)) ->
           has_key "error" d = true \/ has_key "code" d = true ->
           exists key value,
             (key = "error" \/ key = "code")
             /\ lookup key d = Some value
             /\ let msg := DENIAL_OF_SERVICE key (py_str value) (url rp)
                             hdrs prms in
                answer = Raise (DenialOfServiceError msg)
                /\ occurs key msg = true
                /\ occurs (py_str value) msg = true
                /\ shows_request rp msg = true)
    /\ (forall d,
           requests_get rp = Response 200 (Ok (JDict d)) ->
           has_key "error" d = false ->
           has_key "code" d = false ->
           answer = Ok (JDict d))
    /\ (forall body,
           answer = Ok body ->
           requests_get rp = Response 200 (Ok body))
    /\ (forall e,
           requests_get rp = Response 200 (Raise e) ->
           answer = Raise e)
    /\ (forall body,
           requests_get rp = Response 200 (Ok body) ->
           match body with
           | JDict _ => True
           | JList l =>
               answer =
                 if existsb (py_eq (JStr "error")) l
                    || existsb (py_eq (JStr "code")) l
                 then Raise (TypeError
                               "list indices must be integers or slices, not str")
                 else Ok body
           | JStr text =>
               answer =
                 if occurs "error" text || occurs "code" text
                 then Raise (TypeError
                               "string indices must be integers, not 'str'")
                 else Ok body
           | _ =>
               answer =
                 Raise (TypeError ("argument of type '" ++ type_name body
                                   ++ "' is not iterable")%string)
           end).
Proof.
  intros cfg requests_get timestamp; cbv zeta.
  split; [repeat split|].
  split; [|split; [|split; [|split; [|split; [|split]]]]];
    [| | | | apply get_api_answer_ok_inv | |].
  - intros error Hget; unfold get_api_answer; rewrite Hget.
    split; [reflexivity|]; unfold NO_RESPONSE; carried.
  - intros status_code body Hget Hcode; unfold get_api_answer; rewrite Hget.
    destruct (status_code =? 200) eqn:E;
      [apply Z.eqb_eq in E; contradiction|].
    split; [reflexivity|]; unfold BAD_RESPONSE; carried.
  - intros d Hget Hkey.
    rewrite (get_api_answer_object _ _ _ _ Hget); cbv zeta.
    destruct (lookup "error" d) as [v|] eqn:Eerror.
    + exists "error", v; split; [auto|split; [exact Eerror|]].
      split; [reflexivity|]; unfold DENIAL_OF_SERVICE; carried.
    + destruct (lookup "code" d) as [v|] eqn:Ecode.
      * exists "code", v; split; [auto|split; [exact Ecode|]].
        split; [reflexivity|]; unfold DENIAL_OF_SERVICE; carried.
      * unfold has_key in Hkey; rewrite Eerror, Ecode in Hkey.
        destruct Hkey; discriminate.
  - intros d Hget Herror Hcode.
    rewrite (get_api_answer_object _ _ _ _ Hget); cbv zeta.
    unfold has_key in Herror, Hcode.
    destruct (lookup "error" d); [discriminate|].
    destruct (lookup "code" d); [discriminate|reflexivity].
  - intros e Hget; unfold get_api_answer; now rewrite Hget.
  - intros body Hget; unfold get_api_answer; rewrite Hget.
    cbn [Z.eqb Pos.eqb negb].
    destruct body as [| b | z | f text | text | l | d];
      cbn [rbind check_denial contains getitem type_name]; auto.
    + destruct (occurs "error" text); cbn [orb rbind]; auto.
      destruct (occurs "code" text); cbn [orb rbind]; auto.
    + destruct (existsb (py_eq (JStr "error")) l); cbn [orb rbind]; auto.
      destruct (existsb (py_eq (JStr "code")) l); cbn [orb rbind]; auto.
Qed.

(** C9: a 200 body that holds both [error] and [code] is refused under the
    key [error], with the value of [error]: the text of the refusal names
    the key [error] and its value, and it is not the refusal that [code]
    and its value would give. *)
Theorem denial_names_error_first :
  forall cfg requests_get timestamp d error_value code_value,
    requests_get (request cfg timestamp) = Response 200 (Ok (JDict d)) ->
    lookup "error" d = Some error_value ->
    lookup "code" d = Some code_value ->
    let hdrs := py_repr (JDict (HEADERS cfg)) in
    let prms := py_repr (JDict [("from_date", timestamp)]) in
    let msg := DENIAL_OF_SERVICE "error" (py_str error_value) ENDPOINT
                 hdrs prms in
    get_api_answer cfg requests_get timestamp
    = Raise (DenialOfServiceError msg)
    /\ msg = ("Отказ от обслуживания. Ключ: error. Ошибка: "
              ++ py_str error_value
              ++ ". Параметры запроса: " ++ ENDPOINT ++ ", " ++ hdrs ++ ", "
              ++ prms ++ ".")%string
    /\ occurs "error" msg = true
    /\ occurs (py_str error_value) msg = true
    /\ shows_request (request cfg timestamp) msg = true
    /\ msg <> DENIAL_OF_SERVICE "code" (py_str code_value) ENDPOINT hdrs prms.
Proof.
  intros cfg requests_get timestamp d error_value code_value Hget Herror _.
  cbv zeta.
  rewrite (get_api_answer_object _ _ _ _ Hget); cbv zeta.
  rewrite Herror.
  split; [reflexivity|].
  split; [reflexivity|].
  split; [unfold DENIAL_OF_SERVICE; find_occurs|].
  split; [unfold DENIAL_OF_SERVICE; find_occurs|].
  split; [unfold DENIAL_OF_SERVICE; carried|].
  unfold DENIAL_OF_SERVICE; intros H.
  apply append_inj_l in H; discriminate.
Qed.

(** The refusal of [get_denied], whose body lists [code] before [error],
    names [error]. *)
Lemma denial_names_error_first_witness :
  get_api_answer sample_config get_denied (JNum 1700000000) =
    Raise (DenialOfServiceError
             "Отказ от обслуживания. Ключ: error. Ошибка: bad_request. Параметры запроса: https://practicum.yandex.ru/api/user_api/homework_statuses/, {'Authorization': 'OAuth practicum-token'}, {'from_date': 1700000000}.").
Proof.
  exact (proj1 (denial_names_error_first sample_config get_denied
                  (JNum 1700000000)
                  [("code", JStr "not_authenticated");
                   ("error", JStr "bad_request")]
                  (JStr "bad_request") (JStr "not_authenticated")
                  eq_refl eq_refl eq_refl)).
Defined.

(** The cases on sample transports: unreachable, 404, an idle service. *)
Lemma get_api_answer_classifies_witness :
  get_api_answer sample_config get_down (JNum 1700000000) =
    Raise (ConnectionError
             "API-сервис не отвечает: Connection refused. Параметры запроса: https://practicum.yandex.ru/api/user_api/homework_statuses/, {'Authorization': 'OAuth practicum-token'}, {'from_date': 1700000000}.")
  /\ get_api_answer sample_config get_not_found (JNum 1700000000) =
       Raise (BadResponseError
                "Код ответа API: 404. Параметры запроса: https://practicum.yandex.ru/api/user_api/homework_statuses/, {'Authorization': 'OAuth practicum-token'}, {'from_date': 1700000000}.")
  /\ get_api_answer sample_config (get_idle 1700000600) (JNum 1700000000) =
       Ok (JDict [("homeworks", JList []); ("current_date", JNum 1700000600)]).
Proof.
  split; [|split].
  - destruct (get_api_answer_classifies sample_config get_down
                (JNum 1700000000)) as (_ & Hdown & _).
    exact (proj1 (Hdown "Connection refused" eq_refl)).
  - destruct (get_api_answer_classifies sample_config get_not_found
                (JNum 1700000000)) as (_ & _ & Hstatus & _).
    apply (Hstatus 404 (Ok JNull) eq_refl); discriminate.
  - destruct (get_api_answer_classifies sample_config (get_idle 1700000600)
                (JNum 1700000000)) as (_ & _ & _ & _ & Hbody & _).
    exact (Hbody _ eq_refl eq_refl eq_refl).
Defined.

(** C2 as stated leaves out the 200 bodies that are no objects: the body
    [5] holds no key and is not returned, [get_api_answer] raises a
    [TypeError] that is none of the three failures of the claim. *)
Lemma get_api_answer_number_body :
  get_number (request sample_config (JNum 1700000000))
  = Response 200 (Ok (JNum 5))
  /\ get_api_answer sample_config get_number (JNum 1700000000)
     = Raise (TypeError "argument of type 'int' is not iterable").
Proof. split; reflexivity. Qed.

(** ** [check_response] *)

(** C4: on a body without the key [homeworks], [check_response] raises
    [KeyError] with the missing-key message; on a body whose [homeworks] is
    not a list it raises [TypeError] with the not-a-list message; otherwise
    it returns the list as it is in the body, whatever its items are. *)
Theorem check_response_extracts :
  forall d,
    (lookup "homeworks" d = None ->
     check_response (JDict d) = Raise (KeyError MISSING_REQUIRED_KEY))
    /\ (forall value,
           lookup "homeworks" d = Some value ->
           is_list value = false ->
           check_response (JDict d) = Raise (TypeError INVALID_DATA_TYPE))
    /\ (forall homeworks,
           lookup "homeworks" d = Some (JList homeworks) ->
           check_response (JDict d) = Ok (JList homeworks)).
Proof.
  intros d; unfold check_response, getitem; repeat split.
  - intros H; now rewrite H.
  - intros value H Hlist; rewrite H; cbn [rbind]. now rewrite Hlist.
  - intros homeworks H; now rewrite H.
Qed.

(** The bodies of the specification's examples: no [homeworks] key, and
    a [homeworks] that is a string. *)
Lemma check_response_extracts_witness :
  check_response (JDict [("current_date", JNum 1700000600)])
  = Raise (KeyError MISSING_REQUIRED_KEY)
  /\ check_response (JDict [("homeworks", JStr "not a list")])
     = Raise (TypeError INVALID_DATA_TYPE)
  /\ check_response (JDict [("homeworks", JList [JNum 1; JStr "two"])])
     = Ok (JList [JNum 1; JStr "two"]).
Proof.
  split; [|split].
  - exact (proj1 (check_response_extracts
                    [("current_date", JNum 1700000600)]) eq_refl).
  - exact (proj1 (proj2 (check_response_extracts
                           [("homeworks", JStr "not a list")]))
             (JStr "not a list") eq_refl eq_refl).
  - exact (proj2 (proj2 (check_response_extracts
                           [("homeworks", JList [JNum 1; JStr "two"])]))
             [JNum 1; JStr "two"] eq_refl).
Defined.

(** ** [parse_status] *)

(** The codes of [VERDICTS] are the three verdict codes. *)
Lemma VERDICTS_codes :
  forall s, In s verdict_codes <-> exists verdict, assoc s VERDICTS = Some verdict.
Proof.
  intros s; split.
  - intros [<- | [<- | [<- | []]]]; simpl; eauto.
  - intros [verdict H]; unfold VERDICTS, assoc in H.
    destruct (String.eqb s "approved") eqn:E1;
      [apply String.eqb_eq in E1; subst; simpl; auto|].
    destruct (String.eqb s "rejected") eqn:E2;
      [apply String.eqb_eq in E2; subst; simpl; auto|].
    destruct (String.eqb s "reviewing") eqn:E3;
      [apply String.eqb_eq in E3; subst; simpl; auto|].
    discriminate.
Qed.

(** C5, as the code has it: for a homework whose status is one of the three
    verdict codes, [parse_status] returns the template filled with the
    homework's name and the verdict text of that code, so the name and the
    verdict both occur in the result; for a status outside the three codes
    that Python can hash (a string, a number, a boolean, [null]) it raises
    [ValueError] with the message that names the status; for a status that
    is a list or an object the [in] test raises [TypeError]. *)
Theorem parse_status_describes :
  forall d homework_status,
    lookup "status" d = Some homework_status ->
    (forall s homework_name,
        homework_status = JStr s ->
        In s verdict_codes ->
        lookup "homework_name" d = Some homework_name ->
        exists verdict,
          assoc s VERDICTS = Some verdict
          /\ parse_status (JDict d)
             = Ok (STATUS_CHANGED (py_str homework_name) verdict)
          /\ STATUS_CHANGED (py_str homework_name) verdict
             = ("Изменился статус проверки работы " ++ dq
                ++ py_str homework_name ++ dq ++ ". " ++ verdict)%string
          /\ occurs (py_str homework_name)
               (STATUS_CHANGED (py_str homework_name) verdict) = true
          /\ occurs verdict
               (STATUS_CHANGED (py_str homework_name) verdict) = true)
    /\ ((forall s, homework_status = JStr s -> ~ In s verdict_codes) ->
        if hashable homework_status then
          parse_status (JDict d)
          = Raise (ValueError (UNEXPECTED_STATUS (py_str homework_status)))
          /\ UNEXPECTED_STATUS (py_str homework_status)
             = ("Неожиданный статус домашней работы: "
                ++ py_str homework_status ++ ".")%string
          /\ occurs (py_str homework_status)
               (UNEXPECTED_STATUS (py_str homework_status)) = true
        else
          parse_status (JDict d)
          = Raise (TypeError ("unhashable type: '"
                              ++ type_name homework_status ++ "'")%string)).
Proof.
  intros d homework_status Hstatus; split.
  - intros s homework_name -> Hcode Hname.
    destruct (proj1 (VERDICTS_codes s) Hcode) as [verdict Hv].
    exists verdict; split; [exact Hv|].
    unfold parse_status, getitem; rewrite Hstatus; cbn [rbind find_verdict].
    rewrite Hv, Hname; cbn [rbind].
    split; [reflexivity|].
    split; [reflexivity|].
    unfold STATUS_CHANGED; split; find_occurs.
  - intros Hout.
    unfold parse_status, getitem; rewrite Hstatus; cbn [rbind].
    destruct homework_status as [| b | z | f text | s | l | d'];
      cbn [hashable find_verdict rbind type_name];
      try (split; [reflexivity|split; [reflexivity|]];
           unfold UNEXPECTED_STATUS; find_occurs);
      try reflexivity.
    destruct (assoc s VERDICTS) as [verdict|] eqn:Hv.
    + exfalso; apply (Hout s eq_refl).
      apply VERDICTS_codes; eauto.
    + split; [reflexivity|split; [reflexivity|]].
      unfold UNEXPECTED_STATUS; find_occurs.
Qed.

(** The homeworks of the specification's examples: status [approved] with
    the name [hw1], and the status [unknown_code]. *)
Lemma parse_status_describes_witness :
  (exists verdict,
      assoc "approved" VERDICTS = Some verdict
      /\ parse_status (JDict [("status", JStr "approved");
                              ("homework_name", JStr "hw1")])
         = Ok (STATUS_CHANGED "hw1" verdict)
      /\ STATUS_CHANGED "hw1" verdict
         = ("Изменился статус проверки работы " ++ dq
            ++ "hw1" ++ dq ++ ". " ++ verdict)%string
      /\ occurs "hw1" (STATUS_CHANGED "hw1" verdict) = true
      /\ occurs verdict (STATUS_CHANGED "hw1" verdict) = true)
  /\ parse_status (JDict [("status", JStr "unknown_code")])
     = Raise (ValueError "Неожиданный статус домашней работы: unknown_code.").
Proof.
  split.
  - destruct (parse_status_describes
                [("status", JStr "approved"); ("homework_name", JStr "hw1")]
                (JStr "approved") eq_refl) as [Hknown _].
    apply (Hknown "approved" (JStr "hw1") eq_refl).
    + simpl; auto.
    + reflexivity.
  - destruct (parse_status_describes [("status", JStr "unknown_code")]
                (JStr "unknown_code") eq_refl) as [_ Hunknown].
    apply Hunknown.
    intros s [= <-] [H | [H | [H | []]]]; discriminate.
Defined.

(** C5 as stated fails for a status that is a list: it is outside the
    three codes, and [parse_status] raises [TypeError], not [ValueError]. *)
Lemma parse_status_list_status :
  lookup "status" [("status", JList [JStr "approved"]);
                   ("homework_name", JStr "hw1")]
  = Some (JList [JStr "approved"])
  /\ parse_status (JDict [("status", JList [JStr "approved"]);
                          ("homework_name", JStr "hw1")])
     = Raise (TypeError "unhashable type: 'list'").
Proof. split; reflexivity. Qed.

(** ** [check_tokens] *)

(** C7, as the code has it: [check_tokens] returns true exactly when none
    of the three variables is [None] (a variable set to the empty string
    counts as present); when some are [None] it returns false after one
    critical log line that lists exactly those names, in the order API
    token, bot token, chat id: the line holds the list of the quoted
    names, and the quoted name of a variable occurs in the line exactly
    when that variable is [None]. *)
Theorem check_tokens_reports_missing :
  forall cfg s,
    let names :=
      (if is_None (PRACTICUM_TOKEN cfg) then ["PRACTICUM_TOKEN"] else [])
      ++ (if is_None (AWESOM_O_TOKEN cfg) then ["AWESOM_O_TOKEN"] else [])
      ++ (if is_None (MY_CHAT_ID cfg) then ["MY_CHAT_ID"] else []) in
    let listing := py_repr (JList (map JStr names)) in
    let line := MISSED_VARIABLES listing in
    missed cfg = names
    /\ (fst (check_tokens cfg s) = Ok true <->
        PRACTICUM_TOKEN cfg <> None /\ AWESOM_O_TOKEN cfg <> None
        /\ MY_CHAT_ID cfg <> None)
    /\ (names = [] -> check_tokens cfg s = (Ok true, s))
    /\ (names <> [] ->
        check_tokens cfg s = (Ok false, add_events s [Log CRITICAL line])
        /\ listing
           = ("["
              ++ String.concat ", "
                   (map (fun name => "'" ++ name ++ "'") names)
              ++ "]")%string
        /\ line
           = ("Отсутствуют обязательные переменные окружения: "
              ++ listing
              ++ ". Программа принудительно остановлена.")%string
        /\ occurs listing line = true
        /\ occurs "'PRACTICUM_TOKEN'" line = is_None (PRACTICUM_TOKEN cfg)
        /\ occurs "'AWESOM_O_TOKEN'" line = is_None (AWESOM_O_TOKEN cfg)
        /\ occurs "'MY_CHAT_ID'" line = is_None (MY_CHAT_ID cfg)).
Proof.
  intros [p c a] s; cbv zeta; rewrite check_tokens_unfold.
  unfold missed, globals, VARIABLE_NAMES; cbn [filter String.eqb Ascii.eqb
    Bool.eqb PRACTICUM_TOKEN AWESOM_O_TOKEN MY_CHAT_ID].
  destruct p, a, c; cbn [is_None app];
    (split; [reflexivity|]);
    (split;
     [split;
      [try discriminate; intros _; repeat split; discriminate
      |intros (H1 & H2 & H3); try reflexivity; congruence]|]);
    (split; [intros H; try discriminate; reflexivity|]);
    intros H; try (exfalso; now apply H);
    repeat split; reflexivity.
Qed.

(** With the API token and the chat id missing, the log line lists these
    two, the API token first. *)
Lemma check_tokens_reports_missing_witness :
  check_tokens config_bot_token_only initial =
    (Ok false,
     add_events initial
       [Log CRITICAL
          "Отсутствуют обязательные переменные окружения: ['PRACTICUM_TOKEN', 'MY_CHAT_ID']. Программа принудительно остановлена."]).
Proof.
  destruct (check_tokens_reports_missing config_bot_token_only initial)
    as (_ & _ & _ & Hmissing).
  apply Hmissing; discriminate.
Defined.

(** C7 as stated fails on an empty credential: with the API token set to
    the empty string [check_tokens] returns true and logs nothing. *)
Lemma check_tokens_accepts_empty_token :
  check_tokens config_empty_token initial = (Ok true, initial)
  /\ nonempty (PRACTICUM_TOKEN config_empty_token) = false.
Proof. split; reflexivity. Qed.

(** ** The cursor *)

Lemma dict_get_next_cursor :
  forall response cursor v,
    dict_get response "current_date" cursor = Ok v ->
    next_cursor (Ok response) cursor = v.
Proof.
  intros response cursor v; unfold dict_get, next_cursor.
  destruct response; try discriminate.
  destruct (lookup "current_date" d); congruence.
Qed.

Lemma dict_get_raise_next_cursor :
  forall response cursor e,
    dict_get response "current_date" cursor = Raise e ->
    next_cursor (Ok response) cursor = cursor.
Proof.
  intros response cursor e; unfold dict_get, next_cursor.
  destruct response; try reflexivity.
  destruct (lookup "current_date" d); discriminate.
Qed.

(** The cursor after the body of the [try], whether it raised or not. *)
Lemma poll_timestamp :
  forall cfg bot get s,
    timestamp (snd (poll cfg bot get s))
    = next_cursor (get_api_answer cfg get (timestamp s)) (timestamp s).
Proof.
  intros cfg bot get s.
  poll_cases; cbn [snd timestamp];
    try reflexivity;
    try (symmetry; eapply dict_get_next_cursor; eassumption);
    try (symmetry; eapply dict_get_raise_next_cursor; eassumption).
  match goal with
  | |- context [send_message ?c ?b ?m ?s0] =>
      destruct (send_message_total c b m s0) as (s' & Hs & Ht & _)
  end.
  rewrite Hs; cbn [snd]; rewrite Ht; cbn [timestamp].
  symmetry; eapply dict_get_next_cursor; eassumption.
Qed.

Lemma cycle_timestamp :
  forall cfg bot get s,
    timestamp (snd (cycle cfg bot get s))
    = next_cursor (get_api_answer cfg get (timestamp s)) (timestamp s).
Proof.
  intros cfg bot get s.
  rewrite <- (poll_timestamp cfg bot get s), cycle_unfold.
  destruct (poll cfg bot get s) as [[[]|e] s1]; cbn [snd add_events timestamp].
  - reflexivity.
  - destruct (send_message_total cfg bot (ERROR_FOUND (str_exn e))
                (add_events s1 [Log ERROR (ERROR_FOUND (str_exn e))]))
      as (s2 & Hs & Ht & _).
    rewrite Hs; cbn [snd]; rewrite Ht; reflexivity.
Qed.

(** A turn leaves the cursor where it was or moves it to what the service
    reports. *)
Lemma cycle_cursor_cases :
  forall cfg bot get s date,
    reports get date ->
    timestamp (snd (cycle cfg bot get s)) = timestamp s
    \/ timestamp (snd (cycle cfg bot get s)) = JNum date.
Proof.
  intros cfg bot get s date Hreports.
  rewrite cycle_timestamp.
  destruct (get_api_answer cfg get (timestamp s)) as [body|e] eqn:Hanswer;
    cbn [next_cursor]; auto.
  destruct body as [| | | | | | d]; auto.
  destruct (lookup "current_date" d) as [v|] eqn:Hdate; auto.
  apply get_api_answer_ok_inv in Hanswer.
  right; exact (Hreports _ _ _ Hanswer Hdate).
Qed.

Lemma clock_monotone :
  forall clock : nat -> Z,
    (forall k, clock k <= clock (S k)) ->
    forall n k, (n <= k)%nat -> clock n <= clock k.
Proof.
  intros clock Hstep n k Hle; induction Hle as [|k Hle IH]; [lia|].
  specialize (Hstep k); lia.
Qed.

Lemma loop_snoc :
  forall cfg bot net n k s,
    snd (loop cfg bot net k (S n) s)
    = snd (cycle cfg bot (net (k + n)%nat) (snd (loop cfg bot net k n s))).
Proof.
  intros cfg bot net n; induction n as [|n IH]; intros k s.
  - cbn [loop]; unfold bind, ret.
    destruct (cycle_total cfg bot (net k) s) as (evs & Hc & _).
    rewrite Hc; cbn [snd]. now rewrite Nat.add_0_r.
  - change (loop cfg bot net k (S (S n)) s)
      with (bind (cycle cfg bot (net k)) (fun _ => loop cfg bot net (S k) (S n)) s).
    change (loop cfg bot net k (S n) s)
      with (bind (cycle cfg bot (net k)) (fun _ => loop cfg bot net (S k) n) s).
    unfold bind.
    destruct (cycle_total cfg bot (net k) s) as (evs & Hc & _).
    rewrite Hc.
    rewrite IH. now rewrite Nat.add_succ_r.
Qed.

Lemma main_snoc :
  forall cfg telegram_Bot bot net now n,
    fst (check_tokens cfg initial) = Ok true ->
    telegram_Bot (AWESOM_O_TOKEN cfg) = Ok bot ->
    snd (main cfg telegram_Bot net now (S n) initial)
    = snd (cycle cfg bot (net n)
             (snd (main cfg telegram_Bot net now n initial))).
Proof.
  intros cfg telegram_Bot bot net now n; rewrite !main_unfold.
  rewrite check_tokens_unfold.
  destruct (missed cfg); [intros _ | discriminate].
  intros ->.
  now rewrite loop_snoc.
Qed.

(** Under a clock that never goes back, the cursor after [n] turns is a
    timestamp between the start time and what the clock shows from turn
    [n] on. *)
Lemma cursor_between :
  forall cfg telegram_Bot bot net now clock,
    fst (check_tokens cfg initial) = Ok true ->
    telegram_Bot (AWESOM_O_TOKEN cfg) = Ok bot ->
    clock_never_back net now clock ->
    forall n,
      exists z,
        cursor_after cfg telegram_Bot net now n = JNum z
        /\ now <= z
        /\ forall k, (n <= k)%nat -> z <= clock k.
Proof.
  intros cfg telegram_Bot bot net now clock Hok Hbot (Hnow & Hstep & Hreports).
  unfold cursor_after; induction n as [|n (z & Hz & Hlow & Hhigh)].
  - exists now; repeat split; [| lia |].
    + rewrite main_unfold, Hbot; rewrite check_tokens_unfold in Hok.
      destruct (missed cfg); [reflexivity | discriminate].
    + intros k _.
      pose proof (clock_monotone clock Hstep 0 k ltac:(lia)); lia.
  - rewrite (main_snoc cfg telegram_Bot bot) by assumption.
    destruct (cycle_cursor_cases cfg bot (net n)
                (snd (main cfg telegram_Bot net now n initial)) (clock n)
                (Hreports n))
      as [Hsame | Hmoved].
    + exists z; rewrite Hsame, Hz; repeat split; auto.
      intros k Hk; apply Hhigh; lia.
    + exists (clock n); rewrite Hmoved; repeat split.
      * specialize (Hhigh n ltac:(lia)); lia.
      * intros k Hk; apply (clock_monotone clock Hstep); lia.
Qed.

(** C8, as the code has it: in a turn whose API call succeeds the cursor
    becomes the body's [current_date] when the body has one and stays as
    it was otherwise, and it stays as it was in a turn whose API call
    fails; the cursor follows the service's clock, so over a run of [main]
    that got its client from [telegram.Bot] it never goes back provided
    the service's clock never goes back. *)
Theorem cursor_follows_current_date :
  forall cfg bot,
    (forall get s body,
        get_api_answer cfg get (timestamp s) = Ok body ->
        timestamp (snd (cycle cfg bot get s))
        = match body with
          | JDict d =>
              match lookup "current_date" d with
              | Some current_date => current_date
              | None => timestamp s
              end
          | _ => timestamp s
          end)
    /\ (forall get s e,
           get_api_answer cfg get (timestamp s) = Raise e ->
           timestamp (snd (cycle cfg bot get s)) = timestamp s)
    /\ (forall telegram_Bot net now clock,
           fst (check_tokens cfg initial) = Ok true ->
           telegram_Bot (AWESOM_O_TOKEN cfg) = Ok bot ->
           clock_never_back net now clock ->
           forall n,
             cursor_le (JNum now) (cursor_after cfg telegram_Bot net now n)
             /\ cursor_le (cursor_after cfg telegram_Bot net now n)
                  (cursor_after cfg telegram_Bot net now (S n))).
Proof.
  intros cfg bot; split; [|split].
  - intros get s body H; rewrite cycle_timestamp, H; reflexivity.
  - intros get s e H; rewrite cycle_timestamp, H; reflexivity.
  - intros telegram_Bot net now clock Hok Hbot Hclock n.
    destruct (cursor_between cfg telegram_Bot bot net now clock Hok Hbot
                Hclock n)
      as (z & Hz & Hlow & Hhigh).
    destruct (cursor_between cfg telegram_Bot bot net now clock Hok Hbot
                Hclock (S n))
      as (z' & Hz' & _ & _).
    rewrite Hz; split; [exact Hlow|].
    revert Hz'; unfold cursor_after in *.
    rewrite (main_snoc cfg telegram_Bot bot) by assumption.
    destruct Hclock as (_ & _ & Hreports).
    destruct (cycle_cursor_cases cfg bot (net n)
                (snd (main cfg telegram_Bot net now n initial)) (clock n)
                (Hreports n))
      as [Hsame | Hmoved].
    + rewrite Hsame, Hz; cbn; lia.
    + rewrite Hmoved; cbn. intros _; apply Hhigh; lia.
Qed.

(** C8 as stated fails when the service's clock is behind: the cursor
    starts at 100, the answer reports [current_date] 50, and the cursor
    goes back to 50. *)
Lemma cursor_goes_back :
  cursor_after sample_config (always bot_delivers) (fun _ => get_idle 50)
    100 0 = JNum 100
  /\ cursor_after sample_config (always bot_delivers) (fun _ => get_idle 50)
       100 1 = JNum 50
  /\ 50 < 100.
Proof. repeat split; vm_compute; reflexivity. Qed.

Lemma get_idle_reports : forall date, reports (get_idle date) date.
Proof.
  intros date rp d v Hget Hdate.
  injection Hget as <-.
  cbn in Hdate; congruence.
Qed.

(** Against a service that shows 120 all along, the cursor starts at 100
    and does not go back in the first turn. *)
Lemma cursor_follows_current_date_witness :
  cursor_le (JNum 100)
    (cursor_after sample_config (always bot_delivers)
       (fun _ => get_idle 120) 100 0)
  /\ cursor_le
       (cursor_after sample_config (always bot_delivers)
          (fun _ => get_idle 120) 100 0)
       (cursor_after sample_config (always bot_delivers)
          (fun _ => get_idle 120) 100 1).
Proof.
  destruct (cursor_follows_current_date sample_config bot_delivers)
    as (_ & _ & Hrun).
  apply (Hrun (always bot_delivers) (fun _ => get_idle 120) 100
           (fun _ => 120) eq_refl eq_refl).
  repeat split.
  - lia.
  - intros _; lia.
  - intros _; apply get_idle_reports.
Defined.

(** * More of the module's behaviour *)

(** ** What [check_response] and [parse_status] return and raise *)

Lemma check_response_ok_inv :
  forall response homeworks,
    check_response response = Ok homeworks ->
    exists d l,
      response = JDict d
      /\ lookup "homeworks" d = Some (JList l)
      /\ homeworks = JList l.
Proof.
  intros response homeworks; unfold check_response, getitem.
  destruct response as [| | | | | | d]; try discriminate.
  destruct (lookup "homeworks" d) as [v|] eqn:Hv; cbn [rbind]; try discriminate.
  destruct v; cbn [is_list negb]; try discriminate.
  intros H; injection H as <-; eauto.
Qed.

(** X1: whatever [check_response] returns is a list, the value of the
    body's [homeworks]; and it raises nothing but the [KeyError] with the
    missing-key message or a [TypeError]: the interpreter's own
    [KeyError('homeworks')] never comes out. *)
Theorem check_response_returns_a_list :
  forall response,
    (forall homeworks,
        check_response response = Ok homeworks ->
        is_list homeworks = true
        /\ exists d, response = JDict d /\ lookup "homeworks" d = Some homeworks)
    /\ (forall e,
           check_response response = Raise e ->
           e = KeyError MISSING_REQUIRED_KEY \/ exists msg, e = TypeError msg).
Proof.
  intros response; split.
  - intros homeworks H.
    destruct (check_response_ok_inv _ _ H) as (d & l & -> & Hl & ->).
    split; [reflexivity | eauto].
  - intros e; unfold check_response, getitem.
    destruct response as [| | | | | | d]; cbn [rbind];
      try (intros H; injection H as <-; right; eauto).
    destruct (lookup "homeworks" d) as [v|]; cbn [rbind].
    + destruct (is_list v); cbn [negb]; [discriminate|].
      intros H; injection H as <-; right; eauto.
    + intros H; injection H as <-; now left.
Qed.

(** On a body that is a list, not an object, the exception is a
    [TypeError]. *)
Lemma check_response_returns_a_list_witness :
  TypeError "list indices must be integers or slices, not str"
  = KeyError MISSING_REQUIRED_KEY
  \/ exists msg,
       TypeError "list indices must be integers or slices, not str"
       = TypeError msg.
Proof.
  exact (proj2 (check_response_returns_a_list (JList []))
           (TypeError "list indices must be integers or slices, not str")
           eq_refl).
Defined.

Lemma parse_status_ok_inv :
  forall homework message,
    parse_status homework = Ok message ->
    exists d status homework_name verdict,
      homework = JDict d
      /\ lookup "status" d = Some (JStr status)
      /\ assoc status VERDICTS = Some verdict
      /\ lookup "homework_name" d = Some homework_name
      /\ message = STATUS_CHANGED (py_str homework_name) verdict.
Proof.
  intros homework message; unfold parse_status, getitem.
  destruct homework as [| | | | | | d]; try discriminate.
  destruct (lookup "status" d) as [status|] eqn:Hs; cbn [rbind]; try discriminate.
  destruct status as [| | | | st | |]; cbn [find_verdict rbind]; try discriminate.
  destruct (assoc st VERDICTS) as [verdict|] eqn:Hv; try discriminate.
  destruct (lookup "homework_name" d) as [name|] eqn:Hn; cbn [rbind];
    try discriminate.
  intros H; injection H as <-.
  exists d, st, name, verdict; auto.
Qed.

(** X2: [parse_status] returns a text exactly for an object whose
    [status] is the string of one of the three verdict codes and which
    has a [homework_name]; the text is then the template filled with that
    name and the verdict of that code. *)
Theorem parse_status_returns_exactly :
  forall homework message,
    parse_status homework = Ok message <->
    exists d status homework_name verdict,
      homework = JDict d
      /\ lookup "status" d = Some (JStr status)
      /\ In status verdict_codes
      /\ assoc status VERDICTS = Some verdict
      /\ lookup "homework_name" d = Some homework_name
      /\ message = STATUS_CHANGED (py_str homework_name) verdict.
Proof.
  intros homework message; split.
  - intros H.
    destruct (parse_status_ok_inv _ _ H) as (d & st & name & verdict & H').
    destruct H' as (-> & Hs & Hv & Hn & ->).
    exists d, st, name, verdict; repeat split; auto.
    apply VERDICTS_codes; eauto.
  - intros (d & st & name & verdict & -> & Hs & _ & Hv & Hn & ->).
    unfold parse_status, getitem.
    rewrite Hs; cbn [rbind find_verdict]. rewrite Hv, Hn; reflexivity.
Qed.

(** X3: which field fails first in [parse_status].  A homework that is not
    an object, or whose status is a list or an object, raises a
    [TypeError]; a homework without [status] raises [KeyError('status')];
    a homework with a known status and no [homework_name] raises
    [KeyError('homework_name')], while with an unknown status the missing
    name goes unnoticed and the unknown status is reported. *)
Theorem parse_status_field_errors :
  forall d,
    (lookup "status" d = None ->
     parse_status (JDict d) = Raise (KeyError "status"))
    /\ (forall status,
           lookup "status" d = Some status ->
           hashable status = false ->
           exists msg, parse_status (JDict d) = Raise (TypeError msg))
    /\ (forall status verdict,
           lookup "status" d = Some (JStr status) ->
           assoc status VERDICTS = Some verdict ->
           lookup "homework_name" d = None ->
           parse_status (JDict d) = Raise (KeyError "homework_name"))
    /\ (forall status,
           lookup "status" d = Some (JStr status) ->
           assoc status VERDICTS = None ->
           lookup "homework_name" d = None ->
           parse_status (JDict d) = Raise (ValueError (UNEXPECTED_STATUS status)))
    /\ (forall homework,
           (forall d', homework <> JDict d') ->
           exists msg, parse_status homework = Raise (TypeError msg)).
Proof.
  intros d; unfold parse_status, getitem; repeat split.
  - intros H; now rewrite H.
  - intros status H Hhash; rewrite H; cbn [rbind].
    destruct status; try discriminate; cbn [find_verdict rbind]; eauto.
  - intros status verdict Hs Hv Hn; rewrite Hs; cbn [rbind find_verdict].
    now rewrite Hv, Hn.
  - intros status Hs Hv _; rewrite Hs; cbn [rbind find_verdict].
    now rewrite Hv.
  - intros homework Hobj.
    destruct homework as [| | | | | | d']; cbn [rbind]; eauto.
    exfalso; now apply (Hobj d').
Qed.

(** A homework that is approved but has no name, and one with neither a
    known status nor a name. *)
Lemma parse_status_field_errors_witness :
  parse_status (JDict [("status", JStr "approved")])
  = Raise (KeyError "homework_name")
  /\ parse_status (JDict [("status", JStr "lost")])
     = Raise (ValueError (UNEXPECTED_STATUS "lost")).
Proof.
  split.
  - destruct (parse_status_field_errors [("status", JStr "approved")])
      as (_ & _ & Hname & _).
    exact (Hname "approved" _ eq_refl eq_refl eq_refl).
  - destruct (parse_status_field_errors [("status", JStr "lost")])
      as (_ & _ & _ & Hstatus & _).
    exact (Hstatus "lost" eq_refl eq_refl eq_refl).
Defined.

(** ** A changed status is a changed message *)

Lemma STATUS_CHANGED_verdict :
  forall homework_name v1 v2,
    STATUS_CHANGED homework_name v1 = STATUS_CHANGED homework_name v2 ->
    v1 = v2.
Proof.
  unfold STATUS_CHANGED; intros homework_name v1 v2 H.
  repeat apply append_inj_l in H. exact H.
Qed.

(** Two verdict codes with the same verdict text are the same code. *)
Lemma VERDICTS_injective :
  forall status1 status2 verdict,
    assoc status1 VERDICTS = Some verdict ->
    assoc status2 VERDICTS = Some verdict ->
    status1 = status2.
Proof.
  intros status1 status2 verdict H1 H2.
  assert (In1 : In status1 verdict_codes) by (apply VERDICTS_codes; eauto).
  assert (In2 : In status2 verdict_codes) by (apply VERDICTS_codes; eauto).
  destruct In1 as [<- | [<- | [<- | []]]];
    destruct In2 as [<- | [<- | [<- | []]]];
    try reflexivity;
    cbn in H1, H2; rewrite <- H1 in H2; discriminate.
Qed.

(** X4: a changed status is never swallowed by the gate.  Two homeworks
    with the same name and different statuses, both described by
    [parse_status], get different texts; so after the first text went out
    the second is not suppressed, whatever the homework ids are. *)
Theorem status_change_changes_message :
  forall d1 d2 message1 message2,
    parse_status (JDict d1) = Ok message1 ->
    parse_status (JDict d2) = Ok message2 ->
    lookup "homework_name" d1 = lookup "homework_name" d2 ->
    lookup "status" d1 <> lookup "status" d2 ->
    message1 <> message2
    /\ forall cfg s hw_id,
         suppressed (with_current_hw_id (delivered cfg s message1) hw_id)
           message2 = false.
Proof.
  intros d1 d2 message1 message2 H1 H2 Hname Hstatus.
  destruct (parse_status_ok_inv _ _ H1)
    as (d1' & st1 & name1 & v1 & E1 & Hs1 & Hv1 & Hn1 & ->).
  destruct (parse_status_ok_inv _ _ H2)
    as (d2' & st2 & name2 & v2 & E2 & Hs2 & Hv2 & Hn2 & ->).
  injection E1 as <-; injection E2 as <-.
  assert (name1 = name2) as <- by congruence.
  assert (Hdiff : STATUS_CHANGED (py_str name1) v1
                  <> STATUS_CHANGED (py_str name1) v2).
  { intros Heq; apply STATUS_CHANGED_verdict in Heq; subst v2.
    apply Hstatus; rewrite Hs1, Hs2.
    now rewrite (VERDICTS_injective _ _ _ Hv1 Hv2). }
  split; [exact Hdiff|].
  intros cfg s hw_id; unfold suppressed, with_current_hw_id, delivered;
    cbn [last_message same_message].
  destruct (String.eqb (STATUS_CHANGED (py_str name1) v1)
              (STATUS_CHANGED (py_str name1) v2)) eqn:E; [|reflexivity].
  apply String.eqb_eq in E; contradiction.
Qed.

(** Homework 5 goes from [reviewing] to [approved]: the two texts
    differ. *)
Lemma status_change_changes_message_witness :
  STATUS_CHANGED "hw1" "Работа взята на проверку ревьюером."
  <> STATUS_CHANGED "hw1" "Работа проверена: ревьюеру всё понравилось. Ура!".
Proof.
  refine (proj1 (status_change_changes_message
                   (sample_homework "reviewing") (sample_homework "approved")
                   _ _ eq_refl eq_refl eq_refl _)).
  discriminate.
Defined.

(** ** [get_api_answer] on 200 bodies that are not objects *)

(** X5: what [get_api_answer] does with a 200 answer whose body is not an
    object.  A body that does not parse lets the parser's exception
    through as it is; a number, a boolean or [null] raises a [TypeError]
    in the [in] test; a list is returned unchanged unless one of its items
    is the string [error] or [code], and a string unless it contains one
    of these words, in which cases indexing it raises a [TypeError]. *)
Theorem get_api_answer_other_bodies :
  forall cfg requests_get timestamp body,
    requests_get (request cfg timestamp) = Response 200 body ->
    match body with
    | Raise e => get_api_answer cfg requests_get timestamp = Raise e
    | Ok (JDict _) => True
    | Ok (JList l) =>
        if existsb (py_eq (JStr "error")) l || existsb (py_eq (JStr "code")) l
        then exists msg,
               get_api_answer cfg requests_get timestamp = Raise (TypeError msg)
        else get_api_answer cfg requests_get timestamp = Ok (JList l)
    | Ok (JStr text) =>
        if occurs "error" text || occurs "code" text
        then exists msg,
               get_api_answer cfg requests_get timestamp = Raise (TypeError msg)
        else get_api_answer cfg requests_get timestamp = Ok (JStr text)
    | Ok _ =>
        exists msg,
          get_api_answer cfg requests_get timestamp = Raise (TypeError msg)
    end.
Proof.
  intros cfg requests_get timestamp body Hget.
  unfold get_api_answer; rewrite Hget; cbn [Z.eqb Pos.eqb negb].
  destruct body as [[| b | z | f repr | text | l | d] | e];
    cbn [rbind check_denial contains getitem]; eauto.
  - destruct (occurs "error" text); cbn [orb rbind]; eauto.
    destruct (occurs "code" text); cbn [orb rbind]; eauto.
  - destruct (existsb (py_eq (JStr "error")) l); cbn [orb rbind]; eauto.
    destruct (existsb (py_eq (JStr "code")) l); cbn [orb rbind]; eauto.
Qed.

(** The body [5]. *)
Lemma get_api_answer_other_bodies_witness :
  exists msg,
    get_api_answer sample_config get_number (JNum 1700000000)
    = Raise (TypeError msg).
Proof.
  exact (get_api_answer_other_bodies sample_config get_number
           (JNum 1700000000) (Ok (JNum 5)) eq_refl).
Defined.

(** ** A turn whose API call succeeds *)

(** With a described homework at the head of the list, the body of the
    [try] comes down to the call of [send_message]. *)
Lemma poll_homework :
  forall cfg bot get s d homework rest status verdict homework_name,
    get_api_answer cfg get (timestamp s) = Ok (JDict d) ->
    lookup "homeworks" d = Some (JList (JDict homework :: rest)) ->
    lookup "status" homework = Some (JStr status) ->
    assoc status VERDICTS = Some verdict ->
    lookup "homework_name" homework = Some homework_name ->
    poll cfg bot get s =
      send_message cfg bot (STATUS_CHANGED (py_str homework_name) verdict)
        (with_current_hw_id
           (with_timestamp s (next_cursor (Ok (JDict d)) (timestamp s)))
           (homework_id homework)).
Proof.
  intros cfg bot get s d homework rest status verdict homework_name
    Hanswer Hlist Hstatus Hverdict Hname.
  unfold poll, bind, get_state, lift; rewrite Hanswer.
  unfold dict_get at 1, next_cursor.
  assert (Hcheck : check_response (JDict d)
                   = Ok (JList (JDict homework :: rest))).
  { unfold check_response, getitem; now rewrite Hlist. }
  assert (Hparse : parse_status (JDict homework)
                   = Ok (STATUS_CHANGED (py_str homework_name) verdict)).
  { unfold parse_status, getitem; rewrite Hstatus; cbn [rbind find_verdict].
    now rewrite Hverdict, Hname. }
  destruct (lookup "current_date" d) as [current_date|];
    cbn [set_timestamp]; rewrite Hcheck; cbn [truthy first_item dict_get];
    unfold homework_id;
    destruct (lookup "id" homework) as [hw_id|];
    cbn [set_current_hw_id]; rewrite Hparse; reflexivity.
Qed.

(** X6: a turn that finds a described homework.  When the API call
    succeeds and the first item of [homeworks] is an object with a known
    status and a name, the turn moves the cursor, takes that item's [id]
    ([None] when it has none) as the current homework id, calls
    [send_message] with the text for that item and sleeps; if the text is
    not suppressed and the client takes both sends, the notification
    state ends as this text and this id. *)
Theorem cycle_notifies_first_homework :
  forall cfg bot get s d homework rest status verdict homework_name,
    get_api_answer cfg get (timestamp s) = Ok (JDict d) ->
    lookup "homeworks" d = Some (JList (JDict homework :: rest)) ->
    lookup "status" homework = Some (JStr status) ->
    assoc status VERDICTS = Some verdict ->
    lookup "homework_name" homework = Some homework_name ->
    let message := STATUS_CHANGED (py_str homework_name) verdict in
    let s0 :=
      with_current_hw_id
        (with_timestamp s (next_cursor (Ok (JDict d)) (timestamp s)))
        (homework_id homework) in
    cycle cfg bot get s =
      (Ok tt, add_events (snd (send_message cfg bot message s0)) [Sleep 600])
    /\ (suppressed s0 message = false ->
        delivery_error cfg bot s0 message = None ->
        cycle cfg bot get s =
          (Ok tt, add_events (delivered cfg s0 message) [Sleep 600])
        /\ last_message (snd (cycle cfg bot get s)) = Some message
        /\ last_message_hw_id (snd (cycle cfg bot get s)) = homework_id homework
        /\ current_hw_id (snd (cycle cfg bot get s)) = homework_id homework).
Proof.
  intros cfg bot get s d homework rest status verdict homework_name
    Hanswer Hlist Hstatus Hverdict Hname; cbv zeta.
  rewrite cycle_unfold.
  rewrite (poll_homework _ _ _ _ _ _ _ _ _ _ Hanswer Hlist Hstatus Hverdict Hname).
  match goal with
  | |- context [send_message ?c ?b ?m ?s0] =>
      destruct (send_message_total c b m s0) as (s' & Hs & _)
  end.
  rewrite Hs; cbn [snd]; split; [reflexivity|].
  intros Hgate Hbot.
  rewrite (send_message_delivers _ _ _ _ Hgate Hbot) in Hs.
  injection Hs as <-.
  repeat split.
Qed.

(** The first turn against a service that reports homework 5 under
    review. *)
Lemma cycle_notifies_first_homework_witness :
  last_message (snd (cycle sample_config bot_delivers
                       (get_homework "reviewing" 1700000600)
                       (started 1700000000)))
  = Some (STATUS_CHANGED "hw1" "Работа взята на проверку ревьюером.")
  /\ current_hw_id (snd (cycle sample_config bot_delivers
                           (get_homework "reviewing" 1700000600)
                           (started 1700000000)))
     = JNum 5.
Proof.
  destruct (cycle_notifies_first_homework sample_config bot_delivers
              (get_homework "reviewing" 1700000600) (started 1700000000)
              _ (sample_homework "reviewing") _ "reviewing" _ (JStr "hw1")
              eq_refl eq_refl eq_refl eq_refl eq_refl) as [_ Hsent].
  destruct (Hsent eq_refl eq_refl) as (_ & Hlast & _ & Hid).
  split; [exact Hlast | exact Hid].
Defined.

(** X7: a turn that finds no homework.  When the API call succeeds and
    [homeworks] is the empty list, the turn moves the cursor, logs the
    debug line and sleeps: it calls the client not at all and leaves the
    current homework id and the notification state as they were. *)
Theorem cycle_without_homeworks :
  forall cfg bot get s d,
    get_api_answer cfg get (timestamp s) = Ok (JDict d) ->
    lookup "homeworks" d = Some (JList []) ->
    cycle cfg bot get s =
      (Ok tt,
       add_events
         (with_timestamp s (next_cursor (Ok (JDict d)) (timestamp s)))
         [Log DEBUG STATUSES_NOT_CHANGED; Sleep 600]).
Proof.
  intros cfg bot get s d Hanswer Hlist.
  rewrite cycle_unfold.
  unfold poll, bind, get_state, lift; rewrite Hanswer.
  unfold dict_get, next_cursor, check_response, getitem.
  rewrite Hlist.
  destruct (lookup "current_date" d); cbn; unfold add_events; cbn;
    now rewrite <- app_assoc.
Qed.

Lemma cycle_without_homeworks_witness :
  cycle sample_config bot_delivers (get_idle 1700000600) (started 1700000000)
  = (Ok tt,
     add_events (with_timestamp (started 1700000000) (JNum 1700000600))
       [Log DEBUG STATUSES_NOT_CHANGED; Sleep 600]).
Proof.
  exact (cycle_without_homeworks sample_config bot_delivers
           (get_idle 1700000600) (started 1700000000) _ eq_refl eq_refl).
Defined.

(** X8: only the first homework counts.  Two answers with the same
    [current_date] whose [homeworks] lists start with the same item make
    the turn do the same, whatever follows the first item. *)
Theorem cycle_reads_first_homework_only :
  forall cfg bot get get' s d d' homework rest rest',
    get_api_answer cfg get (timestamp s) = Ok (JDict d) ->
    get_api_answer cfg get' (timestamp s) = Ok (JDict d') ->
    lookup "current_date" d = lookup "current_date" d' ->
    lookup "homeworks" d = Some (JList (homework :: rest)) ->
    lookup "homeworks" d' = Some (JList (homework :: rest')) ->
    cycle cfg bot get s = cycle cfg bot get' s.
Proof.
  intros cfg bot get get' s d d' homework rest rest'
    Hanswer Hanswer' Hdate Hlist Hlist'.
  assert (Hpoll : poll cfg bot get s = poll cfg bot get' s).
  { unfold poll, bind, get_state, lift; rewrite Hanswer, Hanswer'.
    unfold dict_get at 1 3; rewrite Hdate.
    unfold check_response, getitem; rewrite Hlist, Hlist'.
    destruct (lookup "current_date" d'); reflexivity. }
  now rewrite !cycle_unfold, Hpoll.
Qed.

(** The turn is the same whether homework 5 comes alone or ahead of an
    older homework. *)
Lemma cycle_reads_first_homework_only_witness :
  cycle sample_config bot_delivers (get_homework "reviewing" 1700000600)
    (started 1700000000)
  = cycle sample_config bot_delivers (get_single_homework "reviewing" 1700000600)
      (started 1700000000).
Proof.
  exact (cycle_reads_first_homework_only sample_config bot_delivers
           (get_homework "reviewing" 1700000600)
           (get_single_homework "reviewing" 1700000600)
           (started 1700000000) _ _ _ _ _
           eq_refl eq_refl eq_refl eq_refl eq_refl).
Defined.

(** ** Why a turn fails *)

Lemma dict_get_raise_inv :
  forall value key default e,
    dict_get value key default = Raise e -> exists msg, e = AttributeError msg.
Proof.
  intros value key default e; unfold dict_get.
  destruct value as [| | | | | | d];
    try (intros H; injection H as <-; eauto).
  destruct (lookup key d); discriminate.
Qed.

Lemma check_response_raise_inv :
  forall response e,
    check_response response = Raise e ->
    e = KeyError MISSING_REQUIRED_KEY \/ exists msg, e = TypeError msg.
Proof.
  intros response e; unfold check_response, getitem.
  destruct response as [| | | | | | d]; cbn [rbind];
    try (intros H; injection H as <-; right; eauto).
  destruct (lookup "homeworks" d) as [v|]; cbn [rbind].
  - destruct (is_list v); cbn [negb]; [discriminate|].
    intros H; injection H as <-; right; eauto.
  - intros H; injection H as <-; now left.
Qed.

Lemma parse_status_raise_inv :
  forall homework e, parse_status homework = Raise e -> parsing_failure e.
Proof.
  intros homework e; unfold parse_status, getitem.
  destruct homework as [| | | | | | d]; cbn [rbind];
    try (intros H; injection H as <-; exact I).
  destruct (lookup "status" d) as [status|]; cbn [rbind];
    [| intros H; injection H as <-; cbn; auto].
  destruct status as [| b | z | f repr | st | l | d']; cbn [find_verdict rbind];
    try (intros H; injection H as <-; cbn [parsing_failure];
         solve [exact I | eexists; reflexivity]).
  destruct (assoc st VERDICTS) as [verdict|];
    [| intros H; injection H as <-; cbn [parsing_failure];
       eexists; reflexivity].
  destruct (lookup "homework_name" d); cbn [rbind];
    [discriminate | intros H; injection H as <-; cbn; auto].
Qed.

Lemma first_item_of_homeworks :
  forall response homeworks,
    check_response response = Ok homeworks ->
    truthy homeworks = true ->
    exists homework, first_item homeworks = Ok homework.
Proof.
  intros response homeworks Hcheck Htrue.
  destruct (check_response_ok_inv _ _ Hcheck) as (d & l & _ & _ & ->).
  destruct l as [|homework l]; [discriminate | cbn; eauto].
Qed.

(** X9: why the body of the [try] fails.  When it raises, the exception
    is the one [get_api_answer] raised, or the API call succeeded and the
    exception is a parsing failure (see [parsing_failure]).  So a failure
    of the Telegram client never reaches the loop's handler, and indexing
    the homework list never fails. *)
Theorem poll_failure_causes :
  forall cfg bot get s e s1,
    poll cfg bot get s = (Raise e, s1) ->
    get_api_answer cfg get (timestamp s) = Raise e
    \/ ((exists body, get_api_answer cfg get (timestamp s) = Ok body)
        /\ parsing_failure e).
Proof.
  intros cfg bot get s e s1.
  poll_cases; intros H; try discriminate;
    try (injection H as <- <-);
    try (left; reflexivity);
    try (right; split; [eauto|]).
  all: try match goal with
         | H' : parse_status _ = Raise _ |- _ =>
             exact (parse_status_raise_inv _ _ H')
         | H' : check_response _ = Raise _ |- _ =>
             destruct (check_response_raise_inv _ _ H') as [-> | [msg ->]];
             cbn; auto
         | Hc : check_response _ = Ok ?h, Ht : truthy ?h = true,
           H' : first_item ?h = Raise _ |- _ =>
             destruct (first_item_of_homeworks _ _ Hc Ht) as [hw Hhw];
             congruence
         | H' : dict_get _ _ _ = Raise _ |- _ =>
             destruct (dict_get_raise_inv _ _ _ _ H') as [msg ->]; exact I
         end.
  match type of H with
  | send_message ?c ?b ?m ?s0 = _ =>
      destruct (send_message_total c b m s0) as (s' & Hs & _)
  end.
  rewrite Hs in H; discriminate.
Qed.

(** A turn whose answer lists a homework with an unknown status. *)
Lemma poll_failure_causes_witness :
  get_api_answer sample_config (get_single_homework "lost" 1700000600)
    (JNum 1700000000)
  = Raise (ValueError (UNEXPECTED_STATUS "lost"))
  \/ ((exists body,
         get_api_answer sample_config (get_single_homework "lost" 1700000600)
           (JNum 1700000000) = Ok body)
      /\ parsing_failure (ValueError (UNEXPECTED_STATUS "lost"))).
Proof.
  exact (poll_failure_causes sample_config bot_delivers
           (get_single_homework "lost" 1700000600) (started 1700000000)
           (ValueError (UNEXPECTED_STATUS "lost")) _ eq_refl).
Defined.

(** ** What a run keeps true *)

(** The body of the [try] touches the cursor and the current homework id,
    and then stops there, logs the debug line, or ends in one call of
    [send_message]. *)
Lemma poll_outcomes :
  forall cfg bot get s,
    (last_message (snd (poll cfg bot get s)) = last_message s
     /\ last_message_hw_id (snd (poll cfg bot get s)) = last_message_hw_id s
     /\ (events (snd (poll cfg bot get s)) = events s
         \/ events (snd (poll cfg bot get s))
            = events s ++ [Log DEBUG STATUSES_NOT_CHANGED]))
    \/ (exists message s0,
           last_message s0 = last_message s
           /\ last_message_hw_id s0 = last_message_hw_id s
           /\ events s0 = events s
           /\ snd (poll cfg bot get s) = snd (send_message cfg bot message s0)).
Proof.
  intros cfg bot get s.
  poll_cases; cbn [snd];
    first [ solve [left; cbn; auto]
          | right; do 2 eexists; (split; [|split; [|split]]);
            [ | | | reflexivity]; reflexivity ].
Qed.

Lemma send_message_own :
  forall cfg bot message s,
    exists evs,
      events (snd (send_message cfg bot message s)) = events s ++ evs
      /\ Forall (own_event cfg) evs.
Proof.
  intros cfg bot message s.
  destruct (suppressed s message) eqn:Hgate.
  - rewrite send_message_suppressed by assumption.
    exists []; split; [cbn; now rewrite app_nil_r | constructor].
  - destruct (delivery_error cfg bot s message) as [error|] eqn:Hbot.
    + rewrite (send_message_fails _ _ _ _ _ Hgate Hbot).
      eexists; split; [reflexivity|].
      apply Forall_app; split; [| repeat constructor].
      unfold failed_sends.
      destruct (bot (events s) (MY_CHAT_ID cfg) ATTENTION);
        repeat constructor.
    + rewrite (send_message_delivers _ _ _ _ Hgate Hbot).
      eexists; split; [reflexivity | repeat constructor].
Qed.

Lemma cycle_own :
  forall cfg bot get s,
    exists evs,
      events (snd (cycle cfg bot get s)) = events s ++ evs
      /\ Forall (own_event cfg) evs.
Proof.
  intros cfg bot get s; rewrite cycle_unfold.
  assert (Hpoll : exists evs,
             events (snd (poll cfg bot get s)) = events s ++ evs
             /\ Forall (own_event cfg) evs).
  { destruct (poll_outcomes cfg bot get s)
      as [(_ & _ & [He | He]) | (message & s0 & _ & _ & He0 & ->)].
    - exists []; split; [now rewrite app_nil_r | constructor].
    - exists [Log DEBUG STATUSES_NOT_CHANGED].
      split; [exact He | repeat constructor].
    - destruct (send_message_own cfg bot message s0) as (evs & He & Hown).
      exists evs; split; [now rewrite He, He0 | exact Hown]. }
  destruct Hpoll as (evs & He & Hown).
  destruct (poll cfg bot get s) as [[[]|e] s1]; cbn [snd] in *.
  - exists (evs ++ [Sleep 600]); cbn [add_events events].
    split; [now rewrite He, app_assoc|].
    apply Forall_app; split; [exact Hown | repeat constructor].
  - destruct (send_message_own cfg bot (ERROR_FOUND (str_exn e))
                (add_events s1 [Log ERROR (ERROR_FOUND (str_exn e))]))
      as (evs2 & He2 & Hown2).
    exists (evs ++ [Log ERROR (ERROR_FOUND (str_exn e))] ++ evs2 ++ [Sleep 600]).
    cbn [add_events events] in *.
    split; [rewrite He2, He; now rewrite <- !app_assoc|].
    repeat (apply Forall_app; split); auto; repeat constructor.
Qed.

Lemma loop_own :
  forall cfg bot net n k s,
    Forall (own_event cfg) (events s) ->
    Forall (own_event cfg) (events (snd (loop cfg bot net k n s))).
Proof.
  intros cfg bot net n; induction n as [|n IH]; intros k s Hs; [exact Hs|].
  cbn [loop]; unfold bind.
  destruct (cycle_total cfg bot (net k) s) as (evs0 & Hc & _).
  rewrite Hc; apply IH.
  destruct (cycle_own cfg bot (net k) s) as (evs & He & Hown).
  rewrite He; apply Forall_app; auto.
Qed.

(** X10: one recipient, one interval.  In the trace of [main], after any
    number of turns, every call of the Telegram client is addressed to
    [MY_CHAT_ID] and every sleep lasts 600 seconds; and when the client
    was called at all, [MY_CHAT_ID] is set. *)
Theorem main_sends_to_one_chat :
  forall cfg telegram_Bot net now n,
    (forall chat_id text error,
        In (BotSend chat_id text error)
          (events (snd (main cfg telegram_Bot net now n initial))) ->
        chat_id = MY_CHAT_ID cfg /\ MY_CHAT_ID cfg <> None)
    /\ (forall secs,
           In (Sleep secs)
             (events (snd (main cfg telegram_Bot net now n initial))) ->
           secs = 600).
Proof.
  intros cfg telegram_Bot net now n.
  assert (Hown : Forall (own_event cfg)
                   (events (snd (main cfg telegram_Bot net now n initial)))).
  { rewrite main_unfold.
    destruct (missed cfg); [| repeat constructor].
    destruct (telegram_Bot (AWESOM_O_TOKEN cfg));
      [apply loop_own |]; constructor. }
  rewrite Forall_forall in Hown; split.
  - intros chat_id text error Hin.
    split; [exact (Hown _ Hin)|].
    revert Hin; rewrite main_unfold.
    destruct (missed cfg) as [|name names] eqn:Hmissed.
    + intros _ Hnone.
      revert Hmissed; unfold missed, globals, VARIABLE_NAMES;
        cbn [filter String.eqb Ascii.eqb Bool.eqb].
      rewrite Hnone; cbn [is_None].
      destruct (is_None (PRACTICUM_TOKEN cfg)),
        (is_None (AWESOM_O_TOKEN cfg)); discriminate.
    + cbn; intros [H | []]; discriminate.
  - intros secs Hin; exact (Hown _ Hin).
Qed.

Lemma deliveries_grow :
  forall text a b, (deliveries text a <= deliveries text (a ++ b))%nat.
Proof. intros; rewrite deliveries_app; lia. Qed.

(** The property depends on the notification state and the trace only, and
    survives more events. *)
Lemma records_a_delivery_ext :
  forall s s' evs,
    last_message s' = last_message s ->
    last_message_hw_id s' = last_message_hw_id s ->
    events s' = events s ++ evs ->
    records_a_delivery s -> records_a_delivery s'.
Proof.
  intros s s' evs Hm Hi He; unfold records_a_delivery.
  rewrite Hm, Hi, He.
  destruct (last_message s) as [message|]; auto.
  pose proof (deliveries_grow message (events s) evs); lia.
Qed.

Lemma send_message_records :
  forall cfg bot message s,
    records_a_delivery s ->
    records_a_delivery (snd (send_message cfg bot message s)).
Proof.
  intros cfg bot message s Hs.
  destruct (suppressed s message) eqn:Hgate.
  - now rewrite send_message_suppressed.
  - destruct (delivery_error cfg bot s message) as [error|] eqn:Hbot.
    + rewrite (send_message_fails _ _ _ _ _ Hgate Hbot); cbn [snd].
      apply (records_a_delivery_ext s _
               (failed_sends cfg bot s message
                ++ [Log ERROR (MESSAGE_SENDING_FAILED error)])); auto.
    + rewrite (send_message_delivers _ _ _ _ Hgate Hbot); cbn [snd].
      unfold records_a_delivery, delivered; cbn [last_message events].
      rewrite deliveries_app.
      unfold deliveries at 2; cbn [filter is_delivery_of].
      rewrite String.eqb_refl.
      destruct (String.eqb ATTENTION message); cbn [List.length]; lia.
Qed.

Lemma cycle_records :
  forall cfg bot get s,
    records_a_delivery s -> records_a_delivery (snd (cycle cfg bot get s)).
Proof.
  intros cfg bot get s Hs; rewrite cycle_unfold.
  assert (Hpoll : records_a_delivery (snd (poll cfg bot get s))).
  { destruct (poll_outcomes cfg bot get s)
      as [(Hm & Hi & [He | He]) | (message & s0 & Hm0 & Hi0 & He0 & ->)].
    - apply (records_a_delivery_ext s _ []); auto.
      now rewrite app_nil_r.
    - apply (records_a_delivery_ext s _ [Log DEBUG STATUSES_NOT_CHANGED]);
        auto.
    - apply send_message_records.
      apply (records_a_delivery_ext s s0 []); auto.
      now rewrite app_nil_r. }
  destruct (poll cfg bot get s) as [[[]|e] s1]; cbn [snd] in *.
  - apply (records_a_delivery_ext s1 _ [Sleep 600]); auto.
  - match goal with
    | |- records_a_delivery (add_events ?s2 _) =>
        apply (records_a_delivery_ext s2 _ [Sleep 600]); auto
    end.
    apply send_message_records.
    apply (records_a_delivery_ext s1 _ [Log ERROR (ERROR_FOUND (str_exn e))]);
      auto.
Qed.

Lemma loop_records :
  forall cfg bot net n k s,
    records_a_delivery s ->
    records_a_delivery (snd (loop cfg bot net k n s)).
Proof.
  intros cfg bot net n; induction n as [|n IH]; intros k s Hs; [exact Hs|].
  cbn [loop]; unfold bind.
  destruct (cycle_total cfg bot (net k) s) as (evs0 & Hc & _).
  rewrite Hc; apply IH, cycle_records, Hs.
Qed.

(** X11: the notification state never runs ahead of the chat.  After any
    number of turns of [main], whatever the network and the client did,
    the text held in [last_message] was delivered to the chat at least
    once; and as long as nothing was delivered, no homework id is recorded
    with it. *)
Theorem main_records_deliveries_only :
  forall cfg telegram_Bot net now n,
    let s := snd (main cfg telegram_Bot net now n initial) in
    match last_message s with
    | Some message =>
        exists chat_id, In (BotSend chat_id message None) (events s)
    | None => last_message_hw_id s = JNull
    end.
Proof.
  intros cfg telegram_Bot net now n; cbv zeta.
  assert (Hrec : records_a_delivery
                   (snd (main cfg telegram_Bot net now n initial))).
  { rewrite main_unfold.
    destruct (missed cfg); [|reflexivity].
    destruct (telegram_Bot (AWESOM_O_TOKEN cfg));
      [apply loop_records|]; reflexivity. }
  unfold records_a_delivery in Hrec.
  destruct (last_message (snd (main cfg telegram_Bot net now n initial)))
    as [message|]; [|exact Hrec].
  unfold deliveries in Hrec.
  destruct (filter (is_delivery_of message)
              (events (snd (main cfg telegram_Bot net now n initial))))
    as [|e rest] eqn:Hf; [cbn in Hrec; lia|].
  assert (Hin : In e (filter (is_delivery_of message)
                        (events (snd (main cfg telegram_Bot net now n
                                        initial)))))
    by (rewrite Hf; now left).
  apply filter_In in Hin as [Hin He].
  destruct e as [| chat_id text [error|] |]; try discriminate.
  cbn in He; apply String.eqb_eq in He; subst text.
  exists chat_id; exact Hin.
Qed.

(** After one turn with the service unreachable, the attention line in the
    trace was addressed to the sample chat. *)
Lemma main_sends_to_one_chat_witness :
  Some "1001" = MY_CHAT_ID sample_config /\ MY_CHAT_ID sample_config <> None.
Proof.
  refine (proj1 (main_sends_to_one_chat sample_config (always bot_delivers)
                   (fun _ => get_down) 1700000000 1)
            (Some "1001") ATTENTION None _).
  vm_compute; auto.
Defined.

(** ** What one call of [send_message] can add to the trace *)

(** X12: the four ways a call of [send_message] can go.  It adds nothing;
    or the attention line and the message, both delivered, and the
    confirmation; or the attention line that failed and the error line;
    or the attention line delivered, the message that failed and the error
    line.  So the message is never sent unless the attention line was
    delivered just before, no send is retried inside the call, and the
    notification state changes in the second case only. *)
Theorem send_message_adds :
  forall cfg bot message s,
    let s' := snd (send_message cfg bot message s) in
    let chat := MY_CHAT_ID cfg in
    s' = s
    \/ s' = add_events
              {| current_hw_id := current_hw_id s;
                 last_message := Some message;
                 last_message_hw_id := current_hw_id s;
                 timestamp := timestamp s;
                 events := events s |}
              [BotSend chat ATTENTION None; BotSend chat message None;
               Log INFO (MESSAGE_SENT message)]
    \/ (exists error,
          s' = add_events s [BotSend chat ATTENTION (Some error);
                             Log ERROR (MESSAGE_SENDING_FAILED error)])
    \/ (exists error,
          s' = add_events s [BotSend chat ATTENTION None;
                             BotSend chat message (Some error);
                             Log ERROR (MESSAGE_SENDING_FAILED error)]).
Proof.
  intros cfg bot message s; cbv zeta.
  destruct (suppressed s message) eqn:Hgate.
  - left; now rewrite send_message_suppressed.
  - destruct (delivery_error cfg bot s message) as [error|] eqn:Hbot.
    + rewrite (send_message_fails _ _ _ _ _ Hgate Hbot); cbn [snd].
      unfold delivery_error in Hbot; unfold failed_sends.
      destruct (bot (events s) (MY_CHAT_ID cfg) ATTENTION) as [error'|].
      * injection Hbot as ->. right; right; left; eexists; reflexivity.
      * rewrite Hbot. right; right; right; eexists; reflexivity.
    + rewrite (send_message_delivers _ _ _ _ Hgate Hbot); cbn [snd].
      right; left; reflexivity.
Qed.

(** ** The gate remembers one text *)

(** A status text is never a failure description. *)
Lemma STATUS_CHANGED_not_ERROR_FOUND :
  forall homework_name verdict error,
    String.eqb (STATUS_CHANGED homework_name verdict) (ERROR_FOUND error) = false
    /\ String.eqb (ERROR_FOUND error) (STATUS_CHANGED homework_name verdict)
       = false.
Proof. split; reflexivity. Qed.

Lemma poll_api_failure :
  forall cfg bot get s e,
    get_api_answer cfg get (timestamp s) = Raise e ->
    poll cfg bot get s = (Raise e, s).
Proof.
  intros cfg bot get s e H; unfold poll, bind, get_state, lift.
  now rewrite H.
Qed.

(** X13: the gate remembers the last delivered text only.  Take a client
    that delivers every text and three turns in a row: the service reports
    a described homework, then the API call fails, then the service
    reports the very same answer again.  After the first turn the
    homework's text is the last message; the failure description of the
    second turn replaces it; so the third turn sends the homework's text
    again, although nothing about the homework has changed. *)
Theorem unchanged_status_sent_again_after_failure :
  forall cfg bot get1 get2 get3 s d homework rest status verdict
         homework_name e,
    (forall evs chat_id text, bot evs chat_id text = None) ->
    lookup "homeworks" d = Some (JList (JDict homework :: rest)) ->
    lookup "status" homework = Some (JStr status) ->
    assoc status VERDICTS = Some verdict ->
    lookup "homework_name" homework = Some homework_name ->
    let message := STATUS_CHANGED (py_str homework_name) verdict in
    let s1 := snd (cycle cfg bot get1 s) in
    let s2 := snd (cycle cfg bot get2 s1) in
    let s3 := snd (cycle cfg bot get3 s2) in
    get_api_answer cfg get1 (timestamp s) = Ok (JDict d) ->
    get_api_answer cfg get2 (timestamp s1) = Raise e ->
    get_api_answer cfg get3 (timestamp s2) = Ok (JDict d) ->
    last_message s1 = Some message
    /\ last_message s2 = Some (ERROR_FOUND (str_exn e))
    /\ events s3 =
         events s2 ++ [BotSend (MY_CHAT_ID cfg) ATTENTION None;
                       BotSend (MY_CHAT_ID cfg) message None;
                       Log INFO (MESSAGE_SENT message);
                       Sleep 600].
Proof.
  intros cfg bot get1 get2 get3 s d homework rest status verdict
    homework_name e Hbot Hlist Hstatus Hverdict Hname; cbv zeta.
  intros H1 H2 H3.
  assert (Hdelivers : forall s' text, delivery_error cfg bot s' text = None).
  { intros s' text; unfold delivery_error; now rewrite !Hbot. }
  set (message := STATUS_CHANGED (py_str homework_name) verdict) in *.
  (* the first turn *)
  assert (Hlast1 : last_message (snd (cycle cfg bot get1 s)) = Some message).
  { rewrite cycle_unfold.
    rewrite (poll_homework _ _ _ _ _ _ _ _ _ _ H1 Hlist Hstatus Hverdict Hname).
    fold message.
    match goal with
    | |- context [send_message ?c ?b ?m ?s0] =>
        destruct (suppressed s0 m) eqn:Hgate;
        [ rewrite (send_message_suppressed c b m s0 Hgate)
        | rewrite (send_message_delivers c b m s0 Hgate (Hdelivers s0 m)) ]
    end; cbn [snd add_events last_message delivered]; [|reflexivity].
    unfold suppressed in Hgate; apply andb_prop in Hgate as [Hgate _].
    now apply same_message_eq in Hgate. }
  split; [exact Hlast1|].
  (* the second turn *)
  set (s1 := snd (cycle cfg bot get1 s)) in *.
  assert (Hs2 : snd (cycle cfg bot get2 s1)
                = add_events
                    (delivered cfg
                       (add_events s1 [Log ERROR (ERROR_FOUND (str_exn e))])
                       (ERROR_FOUND (str_exn e)))
                    [Sleep 600]).
  { rewrite cycle_unfold, (poll_api_failure _ _ _ _ _ H2).
    rewrite send_message_delivers; [reflexivity | | apply Hdelivers].
    unfold suppressed; cbn [add_events last_message].
    rewrite Hlast1; cbn [same_message]; unfold message.
    now rewrite (proj1 (STATUS_CHANGED_not_ERROR_FOUND
                          (py_str homework_name) verdict (str_exn e))). }
  revert H3; rewrite Hs2; intros H3.
  split; [reflexivity|].
  (* the third turn *)
  rewrite cycle_unfold.
  rewrite (poll_homework _ _ _ _ _ _ _ _ _ _ H3 Hlist Hstatus Hverdict Hname).
  fold message.
  rewrite send_message_delivers; [| | apply Hdelivers].
  - cbn [snd add_events delivered events with_current_hw_id with_timestamp].
    now rewrite <- !app_assoc.
  - unfold suppressed;
      cbn [add_events delivered last_message with_current_hw_id
             with_timestamp same_message].
    unfold message.
    now rewrite (proj2 (STATUS_CHANGED_not_ERROR_FOUND
                          (py_str homework_name) verdict (str_exn e))).
Qed.

(** Homework 5 under review, an outage, homework 5 under review again:
    the third turn sends the text of the first once more. *)
Lemma unchanged_status_sent_again_after_failure_witness :
  deliveries (STATUS_CHANGED "hw1" "Работа взята на проверку ревьюером.")
    (events
       (snd (cycle sample_config bot_delivers (get_homework "reviewing" 1700000000)
          (snd (cycle sample_config bot_delivers get_down
             (snd (cycle sample_config bot_delivers
                     (get_homework "reviewing" 1700000000)
                     (started 1700000000))))))))
  = 2%nat.
Proof.
  destruct (unchanged_status_sent_again_after_failure sample_config bot_delivers
              (get_homework "reviewing" 1700000000) get_down
              (get_homework "reviewing" 1700000000)
              (started 1700000000) (sample_answer "reviewing" 1700000000)
              (sample_homework "reviewing") _
              "reviewing" _ (JStr "hw1") sample_failure
              (fun _ _ _ => eq_refl) eq_refl eq_refl eq_refl eq_refl
              eq_refl eq_refl eq_refl) as (_ & _ & Hagain).
  rewrite Hagain; vm_compute; reflexivity.
Defined.

(** ** What a failed description leaves behind *)

(** X14: the order of effects in the body of the [try].  When the API
    call succeeds and the first homework cannot be described, the cursor
    has already moved and that homework's [id] is already the current
    homework id when the exception reaches the handler: the turn ends with
    both in place, and the failure description is gated against the new
    id. *)
Theorem failed_description_keeps_cursor_and_id :
  forall cfg bot get s d homework rest e,
    get_api_answer cfg get (timestamp s) = Ok (JDict d) ->
    lookup "homeworks" d = Some (JList (JDict homework :: rest)) ->
    parse_status (JDict homework) = Raise e ->
    poll cfg bot get s =
      (Raise e,
       with_current_hw_id
         (with_timestamp s (next_cursor (Ok (JDict d)) (timestamp s)))
         (homework_id homework))
    /\ timestamp (snd (cycle cfg bot get s))
       = next_cursor (Ok (JDict d)) (timestamp s)
    /\ current_hw_id (snd (cycle cfg bot get s)) = homework_id homework.
Proof.
  intros cfg bot get s d homework rest e Hanswer Hlist Hparse.
  assert (Hpoll : poll cfg bot get s =
                    (Raise e,
                     with_current_hw_id
                       (with_timestamp s
                          (next_cursor (Ok (JDict d)) (timestamp s)))
                       (homework_id homework))).
  { unfold poll, bind, get_state, lift; rewrite Hanswer.
    unfold dict_get at 1, next_cursor.
    assert (Hcheck : check_response (JDict d)
                     = Ok (JList (JDict homework :: rest))).
    { unfold check_response, getitem; now rewrite Hlist. }
    destruct (lookup "current_date" d) as [current_date|];
      cbn [set_timestamp]; rewrite Hcheck; cbn [truthy first_item dict_get];
      unfold homework_id;
      destruct (lookup "id" homework) as [hw_id|];
      cbn [set_current_hw_id]; rewrite Hparse; reflexivity. }
  split; [exact Hpoll|].
  rewrite cycle_unfold, Hpoll.
  match goal with
  | |- context [send_message ?c ?b ?m ?s0] =>
      destruct (send_message_total c b m s0) as (s' & Hs & Ht & Hid & _)
  end.
  rewrite Hs; cbn [snd add_events timestamp current_hw_id].
  rewrite Ht, Hid; split; reflexivity.
Qed.

(** Homework 5 with a status the bot does not know. *)
Lemma failed_description_keeps_cursor_and_id_witness :
  timestamp (snd (cycle sample_config bot_delivers
                    (get_single_homework "lost" 1700000600)
                    (started 1700000000)))
  = JNum 1700000600
  /\ current_hw_id (snd (cycle sample_config bot_delivers
                           (get_single_homework "lost" 1700000600)
                           (started 1700000000)))
     = JNum 5.
Proof.
  destruct (failed_description_keeps_cursor_and_id sample_config bot_delivers
              (get_single_homework "lost" 1700000600) (started 1700000000)
              _ (sample_homework "lost") _ _ eq_refl eq_refl eq_refl)
    as (_ & Hcursor & Hid).
  split; [exact Hcursor | exact Hid].
Defined.
